(** * A shallow embedding of [http_server.py]

    The request/response pipeline of the server: decoding of a raw request
    ([process_request]), dispatch on (collection, method) ([handle_request]),
    the three handlers behind [json_content], and the wire encoding of a
    response ([send_response]).

    Python values are represented as follows.
    - [str] is a list of Unicode code points, [bytes] a list of octets; both
      are lists of [Z].
    - A [dict] is an association list in insertion order.
    - An exception is a value of [exn]; a computation that may raise has type
      [result A].
    - A [float] is a NaN, an infinity, or a sign, a mantissa and a binary
      exponent; its order is that of the exact values and its text is the
      shortest one that reads back as the same float. *)

From Stdlib Require Import ZArith QArith Qround List Bool Lia String Ascii.
From Stdlib Require Import Sorted Permutation.
From Stdlib Require DecimalString.
Import ListNotations.

Open Scope Z_scope.
Set Warnings "-register-all".


(** ** Text and octets *)

Definition str := list Z.
Definition bytes := list Z.

(** An ASCII literal of the source, as a list of code points. *)
Definition lit (s : string) : str :=
  map (fun a => Z.of_N (N_of_ascii a)) (list_ascii_of_string s).

Definition CRLF : str := [13; 10].

Fixpoint str_eqb (a b : str) : bool :=
  match a, b with
  | [], [] => true
  | x :: a', y :: b' => (x =? y) && str_eqb a' b'
  | _, _ => false
  end.

(** [len(s)] *)
Definition len {A} (l : list A) : Z := Z.of_nat (List.length l).

(** [str(n)] for an int *)
Definition str_of_int (n : Z) : str :=
  lit (DecimalString.NilEmpty.string_of_int (Z.to_int n)).

(** ** Exceptions *)

Inductive exn : Type :=
| KeyError
| IndexError
| ValueError
| TypeError
| JSONDecodeError
| UnicodeDecodeError
| UnicodeEncodeError
| FileNotFoundError
| UnboundLocalError.

Inductive result (A : Type) : Type :=
| Ok (a : A)
| Raises (e : exn).
Arguments Ok {A} a.
Arguments Raises {A} e.

Definition bind {A B} (m : result A) (k : A -> result B) : result B :=
  match m with
  | Ok a => k a
  | Raises e => Raises e
  end.

Notation "x <- m ;; k" := (bind m (fun x => k))
  (at level 61, m at next level, right associativity).
Notation "' p <- m ;; k" := (bind m (fun x => match x with p => k end))
  (at level 61, p pattern, m at next level, right associativity).

Fixpoint mapM {A B} (f : A -> result B) (l : list A) : result (list B) :=
  match l with
  | [] => Ok []
  | a :: l' => b <- f a ;; bs <- mapM f l' ;; Ok (b :: bs)
  end.

(** ** [str.split] and [str.join] *)

Fixpoint starts_with (p s : str) : bool :=
  match p, s with
  | [], _ => true
  | x :: p', y :: s' => (x =? y) && starts_with p' s'
  | _ :: _, [] => false
  end.

(** [s.partition(sep)]: the text before the leftmost occurrence of [sep] and
    the text after it, if [sep] occurs. *)
Fixpoint partition (sep s : str) : option (str * str) :=
  if starts_with sep s then Some ([], skipn (List.length sep) s)
  else match s with
       | [] => None
       | c :: s' =>
           match partition sep s' with
           | Some (a, b) => Some (c :: a, b)
           | None => None
           end
       end.

(** [s.split(sep)] with a non-empty [sep]: cut at the leftmost occurrence,
    continue behind it.  Every cut removes at least one character, so
    [length s] cuts are enough. *)
Fixpoint split_fuel (fuel : nat) (sep s : str) : list str :=
  match partition sep s with
  | None => [s]
  | Some (a, b) =>
      match fuel with
      | O => [a]
      | S fuel' => a :: split_fuel fuel' sep b
      end
  end.

Definition split (sep s : str) : list str := split_fuel (List.length s) sep s.

(** [sep.join(parts)] *)
Fixpoint join (sep : str) (parts : list str) : str :=
  match parts with
  | [] => []
  | [p] => p
  | p :: rest => p ++ sep ++ join sep rest
  end.

(** [sep] occurs somewhere in [s]. *)
Fixpoint contains (sep s : str) : bool :=
  starts_with sep s ||
  match s with
  | [] => false
  | _ :: s' => contains sep s'
  end.

(** ** UTF-8 *)

(** The octets of one code point, for [str.encode("utf-8")].  A surrogate
    cannot be encoded. *)
Definition utf8_encode_char (c : Z) : result bytes :=
  if c <? 0 then Raises UnicodeEncodeError
  else if c <? 128 then Ok [c]
  else if c <? 2048 then Ok [192 + c / 64; 128 + c mod 64]
  else if c <? 65536 then
    if (55296 <=? c) && (c <? 57344) then Raises UnicodeEncodeError
    else Ok [224 + c / 4096; 128 + (c / 64) mod 64; 128 + c mod 64]
  else if c <? 1114112 then
    Ok [240 + c / 262144; 128 + (c / 4096) mod 64;
        128 + (c / 64) mod 64; 128 + c mod 64]
  else Raises UnicodeEncodeError.

Fixpoint utf8_encode (s : str) : result bytes :=
  match s with
  | [] => Ok []
  | c :: s' =>
      b <- utf8_encode_char c ;;
      bs <- utf8_encode s' ;;
      Ok (b ++ bs)
  end.

(** A continuation octet, [10xxxxxx]. *)
Definition is_cont (b : Z) : bool := (128 <=? b) && (b <? 192).

(** [bytes.decode()]: strict UTF-8, rejecting stray and missing continuation
    octets, overlong forms, surrogates and values above U+10FFFF. *)
Fixpoint utf8_decode (b : bytes) : result str :=
  match b with
  | [] => Ok []
  | b0 :: r0 =>
      if (0 <=? b0) && (b0 <? 128) then
        s <- utf8_decode r0 ;; Ok (b0 :: s)
      else if (194 <=? b0) && (b0 <? 224) then
        match r0 with
        | b1 :: r1 =>
            if is_cont b1 then
              s <- utf8_decode r1 ;;
              Ok ((b0 - 192) * 64 + (b1 - 128) :: s)
            else Raises UnicodeDecodeError
        | _ => Raises UnicodeDecodeError
        end
      else if (224 <=? b0) && (b0 <? 240) then
        match r0 with
        | b1 :: b2 :: r2 =>
            let c := (b0 - 224) * 4096 + (b1 - 128) * 64 + (b2 - 128) in
            if is_cont b1 && is_cont b2 && (2048 <=? c)
               && negb ((55296 <=? c) && (c <? 57344)) then
              s <- utf8_decode r2 ;; Ok (c :: s)
            else Raises UnicodeDecodeError
        | _ => Raises UnicodeDecodeError
        end
      else if (240 <=? b0) && (b0 <? 248) then
        match r0 with
        | b1 :: b2 :: b3 :: r3 =>
            let c := (b0 - 240) * 262144 + (b1 - 128) * 4096
                     + (b2 - 128) * 64 + (b3 - 128) in
            if is_cont b1 && is_cont b2 && is_cont b3
               && (65536 <=? c) && (c <? 1114112) then
              s <- utf8_decode r3 ;; Ok (c :: s)
            else Raises UnicodeDecodeError
        | _ => Raises UnicodeDecodeError
        end
      else Raises UnicodeDecodeError
  end.

(** A code point that is a Unicode scalar value: what a [str] obtained by
    decoding holds, and what can be encoded. *)
Definition scalar (c : Z) : Prop :=
  0 <= c < 55296 \/ 57344 <= c < 1114112.

(** ** Dictionaries *)

Section Dict.
Context {K V : Type} (eqb : K -> K -> bool).

(** [d.get(k)] *)
Fixpoint dict_get (d : list (K * V)) (k : K) : option V :=
  match d with
  | [] => None
  | (k', v) :: d' => if eqb k' k then Some v else dict_get d' k
  end.

(** [d[k]] *)
Definition dict_getitem (d : list (K * V)) (k : K) : result V :=
  match dict_get d k with
  | Some v => Ok v
  | None => Raises KeyError
  end.

(** [d[k] = v]: a key already present keeps its place. *)
Fixpoint dict_setitem (d : list (K * V)) (k : K) (v : V) : list (K * V) :=
  match d with
  | [] => [(k, v)]
  | (k', v') :: d' =>
      if eqb k' k then (k', v) :: d' else (k', v') :: dict_setitem d' k v
  end.

End Dict.

(** ** Floats *)

(** A [float]: [FFinite negative m e] is the double of value
    [(-1)^negative * m * 2^e]; the zeros are [m = 0]. *)
Inductive pyfloat : Type :=
| FNaN
| FInf (negative : bool)
| FFinite (negative : bool) (m : N) (e : Z).

(** The numbers in their order, the infinities included. *)
Inductive ext : Type :=
| NegInf
| Fin (q : Q)
| PosInf.

Definition pow2 (e : Z) : Q :=
  if 0 <=? e then inject_Z (2 ^ e) else 1 # Z.to_pos (2 ^ (- e)).

Definition pow10 (k : Z) : Q :=
  if 0 <=? k then inject_Z (10 ^ k) else 1 # Z.to_pos (10 ^ (- k)).

Definition Qltb (a b : Q) : bool := negb (Qle_bool b a).

Definition ext_ltb (a b : ext) : bool :=
  match a, b with
  | NegInf, NegInf => false
  | NegInf, _ => true
  | Fin _, NegInf => false
  | Fin x, Fin y => Qltb x y
  | Fin _, PosInf => true
  | PosInf, _ => false
  end.

Definition ext_eqb (a b : ext) : bool :=
  match a, b with
  | NegInf, NegInf => true
  | Fin x, Fin y => Qeq_bool x y
  | PosInf, PosInf => true
  | _, _ => false
  end.

(** The place of a float in the order; a NaN has none. *)
Definition float_key (f : pyfloat) : option ext :=
  match f with
  | FNaN => None
  | FInf true => Some NegInf
  | FInf false => Some PosInf
  | FFinite negative m e =>
      Some (Fin (inject_Z (if negative then - Z.of_N m else Z.of_N m) * pow2 e)%Q)
  end.

Definition int_key (n : Z) : option ext := Some (Fin (inject_Z n)).

(** [x < y] and [x == y] between numbers: exact, and false with a NaN. *)
Definition key_ltb (a b : option ext) : bool :=
  match a, b with
  | Some x, Some y => ext_ltb x y
  | _, _ => false
  end.

Definition key_eqb (a b : option ext) : bool :=
  match a, b with
  | Some x, Some y => ext_eqb x y
  | _, _ => false
  end.

(** *** [float.__repr__] *)

(** The mantissa brought to 53 bits, or to the exponent -1074 of the
    subnormal doubles. *)
Definition normalize (m e : Z) : Z * Z :=
  let shift := 52 - Z.log2 m in
  if 0 <? shift then
    let s := Z.max 0 (Z.min shift (e + 1074)) in (m * 2 ^ s, e - s)
  else (m / 2 ^ (- shift), e - shift).

(** The least [k] from [k] on with [v < 10^k]. *)
Fixpoint decimal_exponent (fuel : nat) (v : Q) (k : Z) : Z :=
  match fuel with
  | O => k
  | S fuel' => if Qltb v (pow10 k) then k else decimal_exponent fuel' v (k + 1)
  end.

(** The shortest decimal [d * 10^x] that lies between [lo] and [hi], the
    half-way points to the neighbouring doubles, and is closest to [v]:
    with [n], [n + 1], ... digits, the two decimals around [v] are tried. *)
Fixpoint shortest_digits (fuel : nat) (v lo hi : Q) (inclusive : bool)
    (k n : Z) : Z * Z :=
  match fuel with
  | O => (0, 0)
  | S fuel' =>
      let unit := pow10 (k - n) in
      let q := (v / unit)%Q in
      let dl := Qfloor q in
      let dh := if Qeq_bool q (inject_Z dl) then dl else dl + 1 in
      let cl := (inject_Z dl * unit)%Q in
      let ch := (inject_Z dh * unit)%Q in
      let inside c :=
        if inclusive then Qle_bool lo c && Qle_bool c hi
        else Qltb lo c && Qltb c hi in
      match inside cl, inside ch with
      | true, true =>
          (if Qltb (v - cl) (ch - v)
              || (Qeq_bool (v - cl) (ch - v) && Z.even dl)
           then dl else dh, k - n)
      | true, false => (dl, k - n)
      | false, true => (dh, k - n)
      | false, false => shortest_digits fuel' v lo hi inclusive k (n + 1)
      end
  end.

Fixpoint strip_zeros (fuel : nat) (d x : Z) : Z * Z :=
  match fuel with
  | O => (d, x)
  | S fuel' =>
      if (d mod 10 =? 0) && negb (d =? 0) then strip_zeros fuel' (d / 10) (x + 1)
      else (d, x)
  end.

(** The digits and the position of the decimal point, [0.digits * 10^decpt],
    of the positive double [m * 2^e]. *)
Definition float_digits (m e : Z) : str * Z :=
  let '(m, e) := normalize m e in
  let v := (inject_Z m * pow2 e)%Q in
  let hi := (inject_Z (2 * m + 1) * pow2 (e - 1))%Q in
  let lo :=
    if (m =? 2 ^ 52) && (-1074 <? e)
    then (inject_Z (4 * m - 1) * pow2 (e - 2))%Q
    else (inject_Z (2 * m - 1) * pow2 (e - 1))%Q in
  let k := decimal_exponent 700 v (-330) in
  let '(d, x) := shortest_digits 17 v lo hi (Z.even m) k 1 in
  let '(d, x) := strip_zeros 17 d x in
  let digits := str_of_int d in
  (digits, x + len digits).

(** [repr] of the positive double [m * 2^e]: with an exponent when the
    point lies more than 16 places to the right or 4 to the left. *)
Definition float_repr (m e : Z) : str :=
  let '(digits, decpt) := float_digits m e in
  let nd := len digits in
  if (decpt <=? -4) || (16 <? decpt) then
    let x := decpt - 1 in
    firstn 1 digits
    ++ (if 1 <? nd then lit "." ++ skipn 1 digits else [])
    ++ lit "e" ++ (if x <? 0 then lit "-" else lit "+")
    ++ (if Z.abs x <? 10 then lit "0" else []) ++ str_of_int (Z.abs x)
  else if decpt <=? 0 then
    lit "0." ++ repeat 48 (Z.to_nat (- decpt)) ++ digits
  else if nd <=? decpt then
    digits ++ repeat 48 (Z.to_nat (decpt - nd)) ++ lit ".0"
  else
    firstn (Z.to_nat decpt) digits ++ lit "." ++ skipn (Z.to_nat decpt) digits.

(** The text [json.dumps] writes for a float. *)
Definition float_json (f : pyfloat) : str :=
  match f with
  | FNaN => lit "NaN"
  | FInf false => lit "Infinity"
  | FInf true => lit "-Infinity"
  | FFinite negative m e =>
      (if negative then lit "-" else [])
      ++ (if (m =? 0)%N then lit "0.0" else float_repr (Z.of_N m) e)
  end.

(** ** Python values *)

Inductive pyval : Type :=
| PNone
| PBool (b : bool)
| PInt (n : Z)
| PStr (s : str)
| PList (l : list pyval)
| PDict (d : list (str * pyval))
| PFloat (f : pyfloat).

Definition pydict := list (str * pyval).

(** [bool(v)] *)
Definition truthy (v : pyval) : bool :=
  match v with
  | PNone => false
  | PBool b => b
  | PInt n => negb (n =? 0)
  | PStr s => match s with [] => false | _ => true end
  | PList l => match l with [] => false | _ => true end
  | PDict d => match d with [] => false | _ => true end
  | PFloat f => match f with FFinite _ m _ => negb (m =? 0)%N | _ => true end
  end.

(** [v[key]] with a [str] key. *)
Definition py_getitem (v : pyval) (key : str) : result pyval :=
  match v with
  | PDict d => dict_getitem str_eqb d key
  | _ => Raises TypeError
  end.

Definition int_of_bool (b : bool) : Z := if b then 1 else 0.

(** The NaN of [json.loads] is one object, and lists and dictionaries take
    an element for equal to itself before they ask [==]. *)
Definition both_nan (a b : pyval) : bool :=
  match a, b with
  | PFloat FNaN, PFloat FNaN => true
  | _, _ => false
  end.

(** [a == b] *)
Fixpoint py_eq (a b : pyval) : bool :=
  match a, b with
  | PNone, PNone => true
  | PBool x, PBool y => Bool.eqb x y
  | PBool x, PInt y => int_of_bool x =? y
  | PInt x, PBool y => x =? int_of_bool y
  | PInt x, PInt y => x =? y
  | PStr x, PStr y => str_eqb x y
  | PList x, PList y =>
      (fix all2 (x y : list pyval) : bool :=
         match x, y with
         | [], [] => true
         | u :: x', v :: y' => (both_nan u v || py_eq u v) && all2 x' y'
         | _, _ => false
         end) x y
  | PDict x, PDict y =>
      (List.length x =? List.length y)%nat &&
      (fix sub (x : list (str * pyval)) : bool :=
         match x with
         | [] => true
         | (k, u) :: x' =>
             match dict_get str_eqb y k with
             | Some v => (both_nan u v || py_eq u v) && sub x'
             | None => false
             end
         end) x
  | PFloat x, PFloat y => key_eqb (float_key x) (float_key y)
  | PFloat x, PInt y => key_eqb (float_key x) (int_key y)
  | PInt x, PFloat y => key_eqb (int_key x) (float_key y)
  | PFloat x, PBool y => key_eqb (float_key x) (int_key (int_of_bool y))
  | PBool x, PFloat y => key_eqb (int_key (int_of_bool x)) (float_key y)
  | _, _ => false
  end.

(** Lexicographic order on code points, [a < b] on [str]. *)
Fixpoint str_ltb (a b : str) : bool :=
  match a, b with
  | _, [] => false
  | [], _ :: _ => true
  | x :: a', y :: b' => (x <? y) || ((x =? y) && str_ltb a' b')
  end.

(** [a < b]: defined between numbers (ints, floats, bools), between
    strings and between lists; a [TypeError] otherwise. *)
Fixpoint py_lt (a b : pyval) : result bool :=
  match a, b with
  | PBool x, PBool y => Ok (int_of_bool x <? int_of_bool y)
  | PBool x, PInt y => Ok (int_of_bool x <? y)
  | PInt x, PBool y => Ok (x <? int_of_bool y)
  | PInt x, PInt y => Ok (x <? y)
  | PStr x, PStr y => Ok (str_ltb x y)
  | PList x, PList y =>
      (fix lex (x y : list pyval) : result bool :=
         match x, y with
         | [], [] => Ok false
         | [], _ :: _ => Ok true
         | _ :: _, [] => Ok false
         | u :: x', v :: y' =>
             if both_nan u v || py_eq u v then lex x' y' else py_lt u v
         end) x y
  | PFloat x, PFloat y => Ok (key_ltb (float_key x) (float_key y))
  | PFloat x, PInt y => Ok (key_ltb (float_key x) (int_key y))
  | PInt x, PFloat y => Ok (key_ltb (int_key x) (float_key y))
  | PFloat x, PBool y => Ok (key_ltb (float_key x) (int_key (int_of_bool y)))
  | PBool x, PFloat y => Ok (key_ltb (int_key (int_of_bool x)) (float_key y))
  | _, _ => Raises TypeError
  end.

(** [iter(v)] *)
Definition py_iter (v : pyval) : result (list pyval) :=
  match v with
  | PList l => Ok l
  | PStr s => Ok (map (fun c => PStr [c]) s)
  | PDict d => Ok (map (fun kv => PStr (fst kv)) d)
  | _ => Raises TypeError
  end.

(** *** [list.sort]

    The sort asks [<] alone.  It first takes the longest run the list
    starts with, either one where no element is less than the one before
    it, or one where every element is; the latter is reversed.  Each later
    element is then put into the run at the place a binary search gives.
    This is what the builtin does on fewer than 64 elements, whatever [<]
    answers; on longer lists it merges several runs, and returns the same
    list whenever [<] orders the elements, equal ones kept in their
    order. *)

Fixpoint run_ascending (prev : pyval) (l : list pyval) : result nat :=
  match l with
  | [] => Ok 0%nat
  | x :: l' =>
      b <- py_lt x prev ;;
      if b then Ok 0%nat else n <- run_ascending x l' ;; Ok (S n)
  end.

Fixpoint run_descending (prev : pyval) (l : list pyval) : result nat :=
  match l with
  | [] => Ok 0%nat
  | x :: l' =>
      b <- py_lt x prev ;;
      if b then n <- run_descending x l' ;; Ok (S n) else Ok 0%nat
  end.

(** The length of the first run, and whether it descends. *)
Definition count_run (l : list pyval) : result (nat * bool) :=
  match l with
  | [] => Ok (0%nat, false)
  | [_] => Ok (1%nat, false)
  | a :: b :: rest =>
      descending <- py_lt b a ;;
      if descending then n <- run_descending b rest ;; Ok (S (S n), true)
      else n <- run_ascending b rest ;; Ok (S (S n), false)
  end.

(** The binary search of the place of [pivot] between [l] and [r]; the
    gap halves at every step, so [length run] steps are enough. *)
Fixpoint bisect (fuel : nat) (run : list pyval) (pivot : pyval) (l r : nat)
  : result nat :=
  match fuel with
  | O => Ok l
  | S fuel' =>
      let p := (l + (r - l) / 2)%nat in
      b <- py_lt pivot (nth p run PNone) ;;
      let l' := if b then l else S p in
      let r' := if b then p else r in
      if (l' <? r')%nat then bisect fuel' run pivot l' r' else Ok l'
  end.

Fixpoint binarysort (run rest : list pyval) : result (list pyval) :=
  match rest with
  | [] => Ok run
  | pivot :: rest' =>
      pos <- bisect (List.length run) run pivot 0 (List.length run) ;;
      binarysort (firstn pos run ++ pivot :: skipn pos run) rest'
  end.

Definition list_sort (l : list pyval) : result (list pyval) :=
  match l with
  | [] | [_] => Ok l
  | _ =>
      '(n, descending) <- count_run l ;;
      let run := firstn n l in
      binarysort (if descending then rev run else run) (skipn n l)
  end.

(** [sorted(v)] *)
Definition py_sorted (v : pyval) : result pyval :=
  items <- py_iter v ;;
  r <- list_sort items ;;
  Ok (PList r).

(** *** Numbers in their order *)

(** The place of a number, a bool included, in the order; a NaN and what
    is no number have none. *)
Definition num_key (v : pyval) : option ext :=
  match v with
  | PBool b => int_key (int_of_bool b)
  | PInt n => int_key n
  | PFloat f => float_key f
  | _ => None
  end.

Definition key_of (v : pyval) : ext :=
  match num_key v with
  | Some k => k
  | None => NegInf
  end.

(** A JSON number other than NaN: an int, a finite float or an infinity. *)
Definition ordered_number (v : pyval) : bool :=
  match v with
  | PInt _ => true
  | PFloat FNaN => false
  | PFloat _ => true
  | _ => false
  end.

(** An int that the interpreter converts to text: from version 3.11 on,
    [str] of an int of more than 4300 digits raises [ValueError], which
    [str_of_int] does not show. *)
Definition within_int_limit (v : pyval) : Prop :=
  match v with
  | PInt n => Z.abs n < 10 ^ 4300
  | _ => True
  end.

(** ** The [json] module *)

Definition hex_digit (n : Z) : Z := if n <? 10 then 48 + n else 87 + n.

(** [format(n, "04x")] for [0 <= n < 65536] *)
Definition hex4 (n : Z) : str :=
  [hex_digit (n / 4096 mod 16); hex_digit (n / 256 mod 16);
   hex_digit (n / 16 mod 16); hex_digit (n mod 16)].

(** The escape of one character under [ensure_ascii=True].  The literals
    below are two characters each, a backslash and a letter. *)
Definition json_escape (c : Z) : str :=
  if c =? 34 then [92; 34]
  else if c =? 92 then lit "\\"
  else if c =? 10 then lit "\n"
  else if c =? 13 then lit "\r"
  else if c =? 9 then lit "\t"
  else if c =? 8 then lit "\b"
  else if c =? 12 then lit "\f"
  else if (32 <=? c) && (c <=? 126) then [c]
  else if c <? 65536 then lit "\u" ++ hex4 c
  else lit "\u" ++ hex4 (55296 + (c - 65536) / 1024)
       ++ lit "\u" ++ hex4 (56320 + (c - 65536) mod 1024).

Definition json_str (s : str) : str := [34] ++ flat_map json_escape s ++ [34].

(** [json.dumps(v)] with the default separators. *)
Fixpoint json_dumps (v : pyval) : str :=
  match v with
  | PNone => lit "null"
  | PBool true => lit "true"
  | PBool false => lit "false"
  | PInt n => str_of_int n
  | PStr s => json_str s
  | PList l => lit "[" ++ join (lit ", ") (map json_dumps l) ++ lit "]"
  | PDict d =>
      lit "{"
      ++ join (lit ", ")
           (map (fun '(k, x) => json_str k ++ lit ": " ++ json_dumps x) d)
      ++ lit "}"
  | PFloat f => float_json f
  end.

(** A decoder for the fragment of JSON without fractions, exponents and
    string escapes.  [json.loads] itself is a parameter of the server below;
    this decoder stands for it in closed examples, whose bodies lie in the
    fragment. *)

Definition is_ws (c : Z) : bool :=
  (c =? 32) || (c =? 9) || (c =? 10) || (c =? 13).

Fixpoint skip_ws (s : str) : str :=
  match s with
  | c :: s' => if is_ws c then skip_ws s' else s
  | [] => []
  end.

Definition is_digit (c : Z) : bool := (48 <=? c) && (c <=? 57).

Fixpoint scan_digits (acc : Z) (s : str) : Z * str :=
  match s with
  | c :: s' => if is_digit c then scan_digits (acc * 10 + (c - 48)) s' else (acc, s)
  | [] => (acc, [])
  end.

(** [0 | [1-9][0-9]*], not followed by a fraction or an exponent. *)
Definition scan_nat (s : str) : result (Z * str) :=
  match s with
  | c :: r =>
      if is_digit c then
        let '(n, r') := if c =? 48 then (0, r) else scan_digits 0 s in
        match r' with
        | c' :: _ =>
            if (c' =? 46) || (c' =? 101) || (c' =? 69)
            then Raises JSONDecodeError else Ok (n, r')
        | [] => Ok (n, r')
        end
      else Raises JSONDecodeError
  | [] => Raises JSONDecodeError
  end.

(** The characters up to the closing quote. *)
Fixpoint scan_string (acc : str) (s : str) : result (str * str) :=
  match s with
  | [] => Raises JSONDecodeError
  | c :: r =>
      if c =? 34 then Ok (rev acc, r)
      else if (c =? 92) || (c <? 32) then Raises JSONDecodeError
      else scan_string (c :: acc) r
  end.

Fixpoint parse_value (fuel : nat) (s : str) : result (pyval * str) :=
  match fuel with
  | O => Raises JSONDecodeError
  | S f =>
      let s := skip_ws s in
      if starts_with (lit "null") s then Ok (PNone, skipn 4 s)
      else if starts_with (lit "true") s then Ok (PBool true, skipn 4 s)
      else if starts_with (lit "false") s then Ok (PBool false, skipn 5 s)
      else
        match s with
        | [] => Raises JSONDecodeError
        | c :: r =>
            if c =? 34 then
              '(t, r') <- scan_string [] r ;; Ok (PStr t, r')
            else if c =? 91 then
              match skip_ws r with
              | c' :: r' =>
                  if c' =? 93 then Ok (PList [], r')
                  else '(vs, r'') <- parse_items f r ;; Ok (PList vs, r'')
              | [] => Raises JSONDecodeError
              end
            else if c =? 123 then
              match skip_ws r with
              | c' :: r' =>
                  if c' =? 125 then Ok (PDict [], r')
                  else
                    '(kvs, r'') <- parse_members f r ;;
                    Ok (PDict (fold_left
                                 (fun d kv => dict_setitem str_eqb d (fst kv) (snd kv))
                                 kvs []), r'')
              | [] => Raises JSONDecodeError
              end
            else if c =? 45 then
              '(n, r') <- scan_nat r ;; Ok (PInt (- n), r')
            else
              '(n, r') <- scan_nat s ;; Ok (PInt n, r')
        end
  end
with parse_items (fuel : nat) (s : str) : result (list pyval * str) :=
  match fuel with
  | O => Raises JSONDecodeError
  | S f =>
      '(v, r) <- parse_value f s ;;
      match skip_ws r with
      | c :: r' =>
          if c =? 44 then
            '(vs, r'') <- parse_items f r' ;; Ok (v :: vs, r'')
          else if c =? 93 then Ok ([v], r')
          else Raises JSONDecodeError
      | [] => Raises JSONDecodeError
      end
  end
with parse_members (fuel : nat) (s : str) : result (list (str * pyval) * str) :=
  match fuel with
  | O => Raises JSONDecodeError
  | S f =>
      match skip_ws s with
      | c :: r =>
          if c =? 34 then
            '(k, r1) <- scan_string [] r ;;
            match skip_ws r1 with
            | c1 :: r2 =>
                if c1 =? 58 then
                  '(v, r3) <- parse_value f r2 ;;
                  match skip_ws r3 with
                  | c3 :: r4 =>
                      if c3 =? 44 then
                        '(kvs, r5) <- parse_members f r4 ;; Ok ((k, v) :: kvs, r5)
                      else if c3 =? 125 then Ok ([(k, v)], r4)
                      else Raises JSONDecodeError
                  | [] => Raises JSONDecodeError
                  end
                else Raises JSONDecodeError
            | [] => Raises JSONDecodeError
            end
          else Raises JSONDecodeError
      | [] => Raises JSONDecodeError
      end
  end.

Definition json_loads_plain (s : str) : result pyval :=
  '(v, r) <- parse_value (2 * List.length s + 2) s ;;
  match skip_ws r with
  | [] => Ok v
  | _ :: _ => Raises JSONDecodeError
  end.

(** ** Module constants *)

Definition STATUS_CODES : list (Z * str) :=
  [(200, lit "OK"); (404, lit "Not Found"); (405, lit "Not Allowed")].

Definition HTTP_RESPONSE_TPL : str :=
  lit "{} {} {}" ++ CRLF ++ lit "{}" ++ CRLF ++ CRLF ++ lit "{}" ++ CRLF.

(** [str.format] for a template whose only braces are [{}] fields:
    each field takes the next argument. *)
Fixpoint format (tpl : str) (args : list str) : result str :=
  match tpl with
  | [] => Ok []
  | c :: rest =>
      match rest with
      | c' :: rest' =>
          if (c =? 123) && (c' =? 125) then
            match args with
            | a :: args' => r <- format rest' args' ;; Ok (a ++ r)
            | [] => Raises IndexError
            end
          else r <- format rest args ;; Ok (c :: r)
      | [] => Ok [c]
      end
  end.

(** ** Requests and responses *)

Record Request : Type := {
  method : str;
  resource : str;
  http_version : str;
  headers : list (str * str);
  body : pyval
}.

(** The value of a response header: a [str] or an [int]. *)
Inductive hval : Type :=
| HStr (s : str)
| HInt (n : Z).

(** [f"{value}"] *)
Definition hval_format (v : hval) : str :=
  match v with
  | HStr s => s
  | HInt n => str_of_int n
  end.

Record Response : Type := {
  resp_http_version : str;
  status_code : Z;
  status_message : str;
  resp_headers : list (str * hval);
  resp_body : str
}.

(** [Response.__init__]: the message is looked up, the one passed in is
    not used. *)
Definition Response_init (http_version : str) (status_code : Z)
    (status_message : str) (headers : list (str * hval)) (body : str)
  : result Response :=
  msg <- dict_getitem Z.eqb STATUS_CODES status_code ;;
  Ok {| resp_http_version := http_version;
        status_code := status_code;
        status_message := msg;
        resp_headers := headers;
        resp_body := body |}.

(** [json_content]: the decorator of the handlers. *)
Definition json_content {A} (func : A -> result pyval) (args : A)
  : result (Z * str) :=
  content <- func args ;;
  match content with
  | PNone => msg <- dict_getitem Z.eqb STATUS_CODES 404 ;; Ok (404, msg)
  | _ => Ok (200, json_dumps content)
  end.

(** ** Sequence operations used by the server *)

(** [l[1:-2]] *)
Definition slice_1_m2 {A} (l : list A) : list A :=
  skipn 1 (firstn (List.length l - 2) l).

(** [l[1]] *)
Definition index1 {A} (l : list A) : result A :=
  match nth_error l 1 with
  | Some x => Ok x
  | None => Raises IndexError
  end.

(** [(a, b, c) = l] *)
Definition unpack3 {A} (l : list A) : result (A * A * A) :=
  match l with
  | [a; b; c] => Ok (a, b, c)
  | _ => Raises ValueError
  end.

(** [(a, b) = l] *)
Definition unpack2 {A} (l : list A) : result (A * A) :=
  match l with
  | [a; b] => Ok (a, b)
  | _ => Raises ValueError
  end.

(** ** The server *)

Record HTTPServer : Type := {
  host : str;
  port : Z
}.

(** Modelled from the spec: [http_utils.TcpSocket], missing here, whose
    [send_data] is a blocking write of the full buffer.  The socket is the
    sequence of buffers written so far. *)
Definition TcpSocket := list bytes.

Definition send_data (socket : TcpSocket) (data : bytes) : TcpSocket :=
  socket ++ [data].

Section Server.

(** [json.loads] *)
Variable json_loads : str -> result pyval.
(** The rows [csv.DictReader] yields for [FILE_PATH], or the failure of
    [open]. *)
Variable film : result (list pydict).
(** [datetime.now().ctime()] *)
Variable now : str.

Fixpoint _get_headers_from (headers : list (str * str)) (raw_headers : list str)
  : result (list (str * str)) :=
  match raw_headers with
  | [] => Ok headers
  | header :: rest =>
      '(key, value) <- unpack2 (split (lit ": ") header) ;;
      _get_headers_from (dict_setitem str_eqb headers key value) rest
  end.

Definition _get_headers (raw_headers : list str) : result (list (str * str)) :=
  _get_headers_from [] raw_headers.

Definition _get_body (raw_body : str) : result pyval :=
  match raw_body with
  | [] => Ok PNone
  | _ :: _ => json_loads raw_body
  end.

Definition process_request (raw_request : bytes) : result Request :=
  text <- utf8_decode raw_request ;;
  let request_segments := split CRLF text in
  '(method, resource, http_version) <-
    unpack3 (split (lit " ") (hd [] request_segments)) ;;
  headers <- _get_headers (slice_1_m2 request_segments) ;;
  body <- _get_body (last request_segments []) ;;
  Ok {| method := method; resource := resource;
        http_version := http_version; headers := headers; body := body |}.

Definition sort_numbers_func (request : Request) : result pyval :=
  if negb (truthy (body request)) then Ok (PList [])
  else
    numbers <- py_getitem (body request) (lit "input") ;;
    py_sorted numbers.

Definition sort_numbers : Request -> result (Z * str) :=
  json_content sort_numbers_func.

Definition get_request_headers_func (request : Request) : result pyval :=
  Ok (PDict (map (fun '(k, v) => (k, PStr v)) (headers request))).

Definition get_request_headers : Request -> result (Z * str) :=
  json_content get_request_headers_func.

(** The loop over the reader: the first row whose ["Title"] equals the
    title, else [None]. *)
Fixpoint search_rows (movie_title : str) (rows : list pydict) : result pyval :=
  match rows with
  | [] => Ok PNone
  | row :: rest =>
      title <- dict_getitem str_eqb row (lit "Title") ;;
      if py_eq title (PStr movie_title) then Ok (PDict row)
      else search_rows movie_title rest
  end.

Definition search_movie_title_func (request : Request) : result pyval :=
  let movie_title := last (split (lit "/") (resource request)) [] in
  rows <- film ;;
  search_rows movie_title rows.

Definition search_movie_title : Request -> result (Z * str) :=
  json_content search_movie_title_func.

Definition handler := Request -> result (Z * str).

(** [self.collections] *)
Definition collections : list (str * list (str * handler)) :=
  [ (lit "headers", [(lit "GET", get_request_headers)]);
    (lit "movies", [(lit "GET", search_movie_title)]);
    (lit "sort", [(lit "POST", sort_numbers)]) ].

Definition _generate_response_headers (self : HTTPServer) (content : str)
  : list (str * hval) :=
  [ (lit "Content-Type", HStr (lit "application/json"));
    (lit "Host", HStr (host self ++ lit ":" ++ str_of_int (port self)));
    (lit "Date", HStr now);
    (lit "Content-Length", HInt (len content)) ].

(** The two [try] statements of [handle_request]: the status code, and the
    content when a handler has bound it. *)
Definition dispatch (request : Request) (requested_collection : str)
  : result (Z * option str) :=
  match dict_getitem str_eqb collections requested_collection with
  | Raises KeyError => Ok (404, None)
  | Raises e => Raises e
  | Ok collection =>
      match dict_getitem str_eqb collection (method request) with
      | Raises KeyError => Ok (405, None)
      | Raises e => Raises e
      | Ok method =>
          '(status_code, content) <- method request ;;
          Ok (status_code, Some content)
      end
  end.

Definition handle_request (self : HTTPServer) (request : Request)
  : result Response :=
  requested_collection <- index1 (split (lit "/") (resource request)) ;;
  '(status_code, bound) <- dispatch request requested_collection ;;
  content <-
    (if negb (status_code =? 200)
     then dict_getitem Z.eqb STATUS_CODES status_code
     else match bound with
          | Some content => Ok content
          | None => Raises UnboundLocalError
          end) ;;
  status_message <- dict_getitem Z.eqb STATUS_CODES status_code ;;
  let headers := _generate_response_headers self content in
  Response_init (http_version request) status_code status_message headers content.

(** The text [send_response] formats, before it is encoded. *)
Definition response_text (response : Response) : result str :=
  let headers :=
    join CRLF (map (fun '(key, value) => key ++ lit ": " ++ hval_format value)
                   (resp_headers response)) in
  format HTTP_RESPONSE_TPL
    [resp_http_version response; str_of_int (status_code response);
     status_message response; headers; resp_body response].

Definition send_response (socket : TcpSocket) (response : Response)
  : result (TcpSocket * bytes) :=
  text <- response_text response ;;
  response_data <- utf8_encode text ;;
  Ok (send_data socket response_data, response_data).

(** One turn of the loop of [__call__] on a request already received. *)
Definition serve (self : HTTPServer) (socket : TcpSocket) (raw_request : bytes)
  : result (TcpSocket * bytes) :=
  request <- process_request raw_request ;;
  response <- handle_request self request ;;
  send_response socket response.

End Server.

(** ** The wire framing of a request

    The server only decodes requests.  The framing a client uses is written
    here after the specification: the request line, the header lines, a
    blank line and the body line, joined by CRLF. *)

Definition header_line (h : str * str) : str := fst h ++ lit ": " ++ snd h.

Definition request_lines (method resource http_version : str)
    (headers : list (str * str)) (body_line : str) : list str :=
  (method ++ lit " " ++ resource ++ lit " " ++ http_version)
    :: map header_line headers ++ [[]; body_line].

Definition request_text (method resource http_version : str)
    (headers : list (str * str)) (body_line : str) : str :=
  join CRLF (request_lines method resource http_version headers body_line).

Definition is_scalar (c : Z) : bool :=
  ((0 <=? c) && (c <? 55296)) || ((57344 <=? c) && (c <? 1114112)).

(** A separator of one character, or of two different ones: no occurrence
    of it can overlap another one. *)
Definition plain_sep (sep : str) : Prop :=
  (exists x, sep = [x]) \/ (exists x y, sep = [x; y] /\ x <> y).

(** ** Values used in closed examples *)

Definition quoted (s : str) : str := [34] ++ s ++ [34].

Definition localhost : HTTPServer := {| host := lit "127.0.0.1"; port := 7777 |}.

Definition a_date : str := lit "Wed Nov  4 12:00:00 2026".

Definition two_films : result (list pydict) :=
  Ok [ [(lit "Year", PStr (lit "1979")); (lit "Title", PStr (lit "Alien"))];
       [(lit "Year", PStr (lit "1982")); (lit "Title", PStr (lit "Blade Runner"))] ].

Definition request_of (m r : string) (b : pyval) : Request :=
  {| method := lit m; resource := lit r; http_version := lit "HTTP/1.1";
     headers := [(lit "Host", lit "localhost")]; body := b |}.

(** The object [{"input": [3, 1, 2]}] and its text. *)
Definition input_312 : pyval :=
  PDict [(lit "input", PList (map PInt [3; 1; 2]))].

Definition input_312_text : str :=
  lit "{" ++ quoted (lit "input") ++ lit ": [3, 1, 2]}".

(** The object [{"input": [2, NaN, 1]}]. *)
Definition input_2_nan_1 : pyval :=
  PDict [(lit "input", PList [PInt 2; PFloat FNaN; PInt 1])].

(** The object [{"input": [3, 2.5, 1, -Infinity]}]. *)
Definition input_mixed : pyval :=
  PDict [(lit "input",
          PList [PInt 3; PFloat (FFinite false 5 (-1)); PInt 1; PFloat (FInf true)])].

(** The object [{"x": 1}] and its text. *)
Definition x_1 : pyval := PDict [(lit "x", PInt 1)].

Definition x_1_text : str := lit "{" ++ quoted (lit "x") ++ lit ": 1}".

(** A request without body: request line, one header, blank line, empty
    body line. *)
Definition get_root_raw : bytes :=
  request_text (lit "GET") (lit "/") (lit "HTTP/1.1") [(lit "Host", lit "x")] [].

(** A request line that is not UTF-8: the octet 255 stands in the
    resource. *)
Definition not_utf8_raw : bytes :=
  lit "GET /" ++ [255] ++ lit " HTTP/1.1" ++ CRLF.

(** A request whose only header line has no separator. *)
Definition bad_header_raw : bytes :=
  join CRLF [lit "GET / HTTP/1.1"; lit "junk"; []; []].

(** ** The loop of [__call__]

    Modelled from the spec: [recieve_data] of [http_utils.TcpSocket],
    missing here, a blocking read that hands over the next buffer received.
    The buffers the socket will deliver are given as a list.  The loop
    serves them in order; an exception leaves the loop, and with no buffer
    left the loop blocks in the read.  The result is the socket as the loop
    leaves it and the exception that ended it, if any. *)
Fixpoint call_loop (json_loads : str -> result pyval)
    (film : result (list pydict)) (now : str) (self : HTTPServer)
    (socket : TcpSocket) (incoming : list bytes) : TcpSocket * option exn :=
  match incoming with
  | [] => (socket, None)
  | raw_request :: rest =>
      match serve json_loads film now self socket raw_request with
      | Ok (socket', _) => call_loop json_loads film now self socket' rest
      | Raises e => (socket, Some e)
      end
  end.

(** A printable ASCII character. *)
Definition printable (c : Z) : Prop := 32 <= c <= 126.

(** Two header lines with the same name. *)
Definition twice_accept_raw : bytes :=
  request_text (lit "GET") (lit "/headers") (lit "HTTP/1.1")
    [(lit "Accept", lit "text/html"); (lit "Host", lit "x");
     (lit "Accept", lit "*/*")] [].

(** A request that ends behind its header line, without the blank line. *)
Definition no_blank_line_raw : bytes :=
  join CRLF [lit "GET /headers HTTP/1.1"; lit "Host: x"; []].

(** A request with a header line where the blank line should be. *)
Definition late_header_raw : bytes :=
  join CRLF [lit "GET /headers HTTP/1.1"; lit "Host: x"; lit "Accept: */*"; []].

(** A record of the file without "Title". *)
Definition untitled_film : result (list pydict) :=
  Ok [ [(lit "Year", PStr (lit "1979")); (lit "Name", PStr (lit "Alien"))] ].

(** * Properties *)

(** ** Text *)

Lemma str_eqb_eq (a b : str) : str_eqb a b = true <-> a = b.
Proof.
  revert b; induction a as [|x a IH]; intros [|y b]; simpl; split;
    try congruence; try reflexivity.
  - intros H. apply andb_true_iff in H as [Hx Hr].
    apply Z.eqb_eq in Hx. apply IH in Hr. congruence.
  - intros H. injection H as -> ->. rewrite Z.eqb_refl. simpl.
    apply IH. reflexivity.
Qed.

Lemma str_eqb_refl (a : str) : str_eqb a a = true.
Proof. apply str_eqb_eq. reflexivity. Qed.

Lemma str_eqb_neq (a b : str) : str_eqb a b = false <-> a <> b.
Proof.
  split.
  - intros H E. apply str_eqb_eq in E. congruence.
  - intros H. destruct (str_eqb a b) eqn:E; [|reflexivity].
    apply str_eqb_eq in E. contradiction.
Qed.

Lemma starts_with_app (p s : str) : starts_with p (p ++ s) = true.
Proof.
  induction p as [|x p IH]; simpl; [reflexivity|].
  rewrite Z.eqb_refl. exact IH.
Qed.

Lemma starts_with_inv (p s : str) :
  starts_with p s = true -> s = p ++ skipn (List.length p) s.
Proof.
  revert s; induction p as [|x p IH]; intros s H; simpl in *.
  - reflexivity.
  - destruct s as [|y s]; [discriminate|].
    apply andb_true_iff in H as [Hx Hr]. apply Z.eqb_eq in Hx. subst y.
    simpl. f_equal. apply IH. exact Hr.
Qed.

(** What [partition] returns: the separator sits between the two parts. *)
Lemma partition_some (sep s a b : str) :
  partition sep s = Some (a, b) -> s = a ++ sep ++ b.
Proof.
  revert a b; induction s as [|c s IH]; intros a b H.
  - simpl in H. destruct (starts_with sep []) eqn:E.
    + injection H as <- <-. apply starts_with_inv in E. exact E.
    + discriminate.
  - cbn [partition] in H. destruct (starts_with sep (c :: s)) eqn:E.
    + injection H as <- <-. apply starts_with_inv in E. exact E.
    + destruct (partition sep s) as [[a' b']|] eqn:P; [|discriminate].
      injection H as <- <-. simpl. f_equal. apply IH. reflexivity.
Qed.

Lemma partition_none (sep s : str) :
  partition sep s = None <-> contains sep s = false.
Proof.
  induction s as [|c s IH]; cbn [partition contains].
  - destruct (starts_with sep []); simpl; split; congruence.
  - destruct (starts_with sep (c :: s)); simpl.
    + split; congruence.
    + rewrite <- IH. destruct (partition sep s) as [[a b]|]; split; congruence.
Qed.

Lemma partition_shorter (sep s a b : str) :
  sep <> [] -> partition sep s = Some (a, b) ->
  (List.length b < List.length s)%nat.
Proof.
  intros Hsep H. apply partition_some in H. subst s.
  rewrite !length_app. destruct sep; [contradiction|]. simpl. lia.
Qed.

(** The fuel of [split] is enough: more of it changes nothing. *)
Lemma split_fuel_enough (sep : str) (n : nat) (s : str) :
  sep <> [] -> (List.length s <= n)%nat ->
  split_fuel n sep s = split_fuel (List.length s) sep s.
Proof.
  intros Hsep. revert s.
  induction n as [n IH] using (well_founded_induction Wf_nat.lt_wf).
  intros s Hn.
  destruct n as [|n]; [replace (List.length s) with 0%nat by lia; reflexivity|].
  destruct (List.length s) as [|m] eqn:El.
  - destruct s; [|discriminate]. cbn [split_fuel].
    destruct (partition sep []) as [[a b]|] eqn:P; [|reflexivity].
    apply partition_shorter in P; [simpl in P; lia | exact Hsep].
  - cbn [split_fuel].
    destruct (partition sep s) as [[a b]|] eqn:P; [|reflexivity].
    f_equal. pose proof (partition_shorter _ _ _ _ Hsep P) as Hb.
    rewrite (IH n) by lia. rewrite (IH m) by lia. reflexivity.
Qed.

Lemma split_cut (sep s a b : str) :
  sep <> [] -> partition sep s = Some (a, b) -> split sep s = a :: split sep b.
Proof.
  intros Hsep P. unfold split.
  pose proof (partition_shorter _ _ _ _ Hsep P) as Hb.
  destruct (List.length s) as [|n] eqn:El; [lia|].
  cbn [split_fuel]. rewrite P. f_equal.
  apply split_fuel_enough; [exact Hsep | lia].
Qed.

Lemma split_whole (sep s : str) : partition sep s = None -> split sep s = [s].
Proof.
  intros P. unfold split. destruct (List.length s); cbn [split_fuel]; rewrite P; reflexivity.
Qed.

Lemma split_nonempty (sep s : str) : split sep s <> [].
Proof.
  unfold split. destruct (List.length s); cbn [split_fuel];
    destruct (partition sep s) as [[a b]|]; discriminate.
Qed.

(** A text splits into a single segment exactly when the separator does
    not occur in it. *)
Lemma split_single (sep s : str) :
  sep <> [] ->
  ((List.length (split sep s) < 2)%nat <-> contains sep s = false).
Proof.
  intros Hsep. rewrite <- partition_none.
  destruct (partition sep s) as [[a b]|] eqn:P.
  - rewrite (split_cut sep s a b Hsep P). cbn [List.length].
    pose proof (split_nonempty sep b) as Hne.
    destruct (split sep b); [contradiction|]. cbn [List.length].
    split; [lia|discriminate].
  - rewrite (split_whole sep s P). cbn [List.length]. split; [reflexivity|lia].
Qed.

Lemma plain_sep_nonempty (sep : str) : plain_sep sep -> sep <> [].
Proof. intros [[x ->]|[x [y [-> _]]]]; discriminate. Qed.

(** With no occurrence inside [a], the leftmost occurrence of a plain
    separator in [a ++ sep ++ rest] is the one written there. *)
Lemma partition_at (sep a rest : str) :
  plain_sep sep -> contains sep a = false ->
  partition sep (a ++ sep ++ rest) = Some (a, rest).
Proof.
  intros Hsep. induction a as [|c a IH]; intros Ha.
  - destruct Hsep as [[x ->]|[x [y [-> Hxy]]]]; simpl;
      rewrite ?Z.eqb_refl; reflexivity.
  - cbn [contains] in Ha. apply orb_false_iff in Ha as [Hhead Htail].
    specialize (IH Htail). cbn [app partition]. rewrite IH.
    assert (starts_with sep (c :: a ++ sep ++ rest) = false) as ->; [|reflexivity].
    destruct Hsep as [[x ->]|[x [y [-> Hxy]]]].
    + simpl in *. destruct (x =? c); [discriminate|reflexivity].
    + simpl in *. destruct (x =? c); [|reflexivity]. simpl in *.
      destruct a as [|d a]; simpl in *.
      * apply Z.eqb_neq in Hxy. rewrite Z.eqb_sym, Hxy. reflexivity.
      * destruct (y =? d); [discriminate|reflexivity].
Qed.

(** [split] undoes [join] when no part holds the separator. *)
Lemma split_join (sep p : str) (ps : list str) :
  plain_sep sep ->
  Forall (fun q => contains sep q = false) (p :: ps) ->
  split sep (join sep (p :: ps)) = p :: ps.
Proof.
  intros Hsep. revert p. induction ps as [|q ps IH]; intros p H.
  - apply Forall_inv in H. apply split_whole. apply partition_none. exact H.
  - inversion H as [|? ? Hp Hrest]; subst.
    change (join sep (p :: q :: ps)) with (p ++ sep ++ join sep (q :: ps)).
    rewrite (split_cut sep _ p (join sep (q :: ps))).
    + f_equal. apply IH. exact Hrest.
    + apply plain_sep_nonempty. exact Hsep.
    + apply partition_at; assumption.
Qed.

Lemma plain_CRLF : plain_sep CRLF.
Proof. right. exists 13, 10. split; [reflexivity|lia]. Qed.

Lemma plain_space : plain_sep (lit " ").
Proof. left. exists 32. reflexivity. Qed.

Lemma plain_colon_space : plain_sep (lit ": ").
Proof. right. exists 58, 32. split; [reflexivity|lia]. Qed.

Lemma plain_slash : plain_sep (lit "/").
Proof. left. exists 47. reflexivity. Qed.

(** ** UTF-8 *)

Ltac settle_cmp :=
  match goal with
  | |- context [?a <? ?b] =>
      first [ replace (a <? b) with true
                by (symmetry; apply Z.ltb_lt; Z.div_mod_to_equations; lia)
            | replace (a <? b) with false
                by (symmetry; apply Z.ltb_ge; Z.div_mod_to_equations; lia) ]
  | |- context [?a <=? ?b] =>
      first [ replace (a <=? b) with true
                by (symmetry; apply Z.leb_le; Z.div_mod_to_equations; lia)
            | replace (a <=? b) with false
                by (symmetry; apply Z.leb_gt; Z.div_mod_to_equations; lia) ]
  end.

Lemma is_scalar_spec (c : Z) : is_scalar c = true <-> scalar c.
Proof. unfold is_scalar, scalar. lia. Qed.

(** Decoding reads back the code point that was encoded. *)
Lemma utf8_decode_encode_char (c : Z) (rest : bytes) :
  scalar c ->
  exists bs, utf8_encode_char c = Ok bs /\
             utf8_decode (bs ++ rest) = (s <- utf8_decode rest ;; Ok (c :: s)).
Proof.
  intros Hc. unfold scalar in Hc. unfold utf8_encode_char.
  destruct (Z.ltb_spec c 0); [lia|].
  destruct (Z.ltb_spec c 128).
  { eexists; split; [reflexivity|]. cbn [app utf8_decode].
    repeat settle_cmp. reflexivity. }
  destruct (Z.ltb_spec c 2048).
  { eexists; split; [reflexivity|]. cbn [app utf8_decode]. unfold is_cont.
    repeat settle_cmp. cbn [andb negb].
    replace ((192 + c / 64 - 192) * 64 + (128 + c mod 64 - 128)) with c
      by (Z.div_mod_to_equations; lia).
    reflexivity. }
  destruct (Z.ltb_spec c 65536).
  { replace ((55296 <=? c) && (c <? 57344)) with false by lia.
    eexists; split; [reflexivity|]. cbn [app utf8_decode]. unfold is_cont.
    cbv zeta.
    replace ((224 + c / 4096 - 224) * 4096 + (128 + (c / 64) mod 64 - 128) * 64
             + (128 + c mod 64 - 128)) with c
      by (Z.div_mod_to_equations; lia).
    repeat settle_cmp. cbn [andb negb].
    replace ((55296 <=? c) && (c <? 57344)) with false by lia.
    reflexivity. }
  destruct (Z.ltb_spec c 1114112); [|lia].
  eexists; split; [reflexivity|]. cbn [app utf8_decode]. unfold is_cont.
  cbv zeta.
  replace ((240 + c / 262144 - 240) * 262144 + (128 + (c / 4096) mod 64 - 128) * 4096
           + (128 + (c / 64) mod 64 - 128) * 64 + (128 + c mod 64 - 128)) with c
    by (Z.div_mod_to_equations; lia).
  repeat settle_cmp. cbn [andb negb]. reflexivity.
Qed.

(** [text.encode("utf-8").decode()] is [text] for a text of scalar values. *)
Lemma utf8_decode_encode (s : str) :
  Forall scalar s ->
  exists b, utf8_encode s = Ok b /\ utf8_decode b = Ok s.
Proof.
  induction 1 as [|c s Hc Hs IH].
  - exists []. split; reflexivity.
  - destruct IH as [b [Eb Db]].
    destruct (utf8_decode_encode_char c b Hc) as [bs [Ec Dc]].
    exists (bs ++ b). split.
    + cbn [utf8_encode]. rewrite Ec, Eb. reflexivity.
    + rewrite Dc, Db. reflexivity.
Qed.

(** ** The order of the numbers *)

Lemma Qltb_lt (x y : Q) : Qltb x y = true <-> (x < y)%Q.
Proof.
  unfold Qltb. rewrite negb_true_iff. split.
  - intros H. apply Qnot_le_lt. intros Hle. apply Qle_bool_iff in Hle. congruence.
  - intros H. destruct (Qle_bool y x) eqn:E; [|reflexivity].
    apply Qle_bool_iff in E. exfalso. exact (Qlt_not_le _ _ H E).
Qed.

Lemma Qltb_ge (x y : Q) : Qltb x y = false <-> (y <= x)%Q.
Proof.
  unfold Qltb. rewrite negb_false_iff. apply Qle_bool_iff.
Qed.

Lemma Qltb_inject_Z (x y : Z) : Qltb (inject_Z x) (inject_Z y) = (x <? y).
Proof.
  unfold Qltb, Qle_bool. cbn [Qnum Qden inject_Z]. rewrite !Z.mul_1_r. lia.
Qed.

(** [<=] on the places is transitive, and [<] goes through it. *)
Lemma ext_le_trans (a b c : ext) :
  ext_ltb b a = false -> ext_ltb c b = false -> ext_ltb c a = false.
Proof.
  destruct a as [|x|], b as [|y|], c as [|z|]; cbn [ext_ltb]; try congruence.
  rewrite !Qltb_ge. intros H1 H2. exact (Qle_trans _ _ _ H1 H2).
Qed.

Lemma ext_lt_le_trans (a b c : ext) :
  ext_ltb a b = true -> ext_ltb c b = false -> ext_ltb a c = true.
Proof.
  destruct a as [|x|], b as [|y|], c as [|z|]; cbn [ext_ltb]; try congruence.
  rewrite !Qltb_lt, Qltb_ge. intros H1 H2. exact (Qlt_le_trans _ _ _ H1 H2).
Qed.

Lemma ext_lt_trans (a b c : ext) :
  ext_ltb a b = true -> ext_ltb b c = true -> ext_ltb a c = true.
Proof.
  destruct a as [|x|], b as [|y|], c as [|z|]; cbn [ext_ltb]; try congruence.
  rewrite !Qltb_lt. intros H1 H2. exact (Qlt_trans _ _ _ H1 H2).
Qed.

Lemma ext_lt_le (a b : ext) : ext_ltb a b = true -> ext_ltb b a = false.
Proof.
  destruct a as [|x|], b as [|y|]; cbn [ext_ltb]; try congruence.
  rewrite Qltb_lt, Qltb_ge. apply Qlt_le_weak.
Qed.

(** [<] between two numbers is the order of their places. *)
Lemma py_lt_key (a b : pyval) :
  num_key a <> None -> num_key b <> None ->
  py_lt a b = Ok (ext_ltb (key_of a) (key_of b)).
Proof.
  unfold key_of.
  destruct a as [| x | x | x | x | x | x], b as [| y | y | y | y | y | y];
    cbn [num_key]; intros Ha Hb; try contradiction; cbn [py_lt];
    unfold int_key in *; cbn [key_ltb ext_ltb];
    rewrite ?Qltb_inject_Z; try reflexivity.
  - destruct (float_key y); [reflexivity|contradiction].
  - destruct (float_key y); [reflexivity|contradiction].
  - destruct (float_key x); [reflexivity|contradiction].
  - destruct (float_key x); [reflexivity|contradiction].
  - destruct (float_key x); [|contradiction].
    destruct (float_key y); [reflexivity|contradiction].
Qed.

Lemma ordered_number_key (v : pyval) :
  ordered_number v = true -> num_key v <> None.
Proof.
  destruct v as [| x | x | x | x | x | f]; cbn; try discriminate.
  destruct f as [|[|]|neg m e]; cbn; discriminate.
Qed.

(** ** [list.sort] on numbers

    [keyed] lists hold numbers other than NaN; [R] is [<=] on them and [D]
    is [>]. *)

Section SortNumbers.

Let keyed (v : pyval) : Prop := num_key v <> None.
Let R (a b : pyval) : Prop := ext_ltb (key_of b) (key_of a) = false.
Let D (a b : pyval) : Prop := ext_ltb (key_of b) (key_of a) = true.

Lemma R_trans (a b c : pyval) : R a b -> R b c -> R a c.
Proof. unfold R. apply ext_le_trans. Qed.

Lemma SS_app (l1 l2 : list pyval) :
  StronglySorted R l1 -> StronglySorted R l2 ->
  (forall x y, In x l1 -> In y l2 -> R x y) ->
  StronglySorted R (l1 ++ l2).
Proof.
  induction 1 as [|a l1 H1 IH Ha]; intros H2 Hc; [exact H2|].
  cbn [app]. constructor.
  - apply IH; [exact H2|]. intros x y Hx Hy. apply Hc; [right; exact Hx|exact Hy].
  - apply Forall_app. split; [exact Ha|].
    apply Forall_forall. intros y Hy. apply Hc; [left; reflexivity|exact Hy].
Qed.

Lemma SS_app_inv (l1 l2 : list pyval) :
  StronglySorted R (l1 ++ l2) ->
  StronglySorted R l1 /\ StronglySorted R l2
  /\ (forall x y, In x l1 -> In y l2 -> R x y).
Proof.
  induction l1 as [|a l1 IH]; cbn [app]; intros H.
  - split; [constructor|]. split; [exact H|]. intros x y [].
  - inversion H as [|? ? Hs Ha]; subst. destruct (IH Hs) as [S1 [S2 Hc]].
    apply Forall_app in Ha as [Ha1 Ha2]. split; [constructor; assumption|].
    split; [exact S2|]. intros x y [<-|Hx] Hy.
    + rewrite Forall_forall in Ha2. apply Ha2. exact Hy.
    + apply Hc; assumption.
Qed.

(** A run that descends all along, read backwards, is in order. *)
Lemma descending_rev (l : list pyval) :
  StronglySorted D l -> StronglySorted R (rev l).
Proof.
  induction 1 as [|a l Hs IH Ha]; [constructor|].
  cbn [rev]. apply SS_app; [exact IH|repeat constructor|].
  intros x y Hx [<-|[]]. apply in_rev in Hx.
  rewrite Forall_forall in Ha. specialize (Ha x Hx).
  unfold D in Ha. unfold R. apply ext_lt_le. exact Ha.
Qed.

Lemma run_ascending_spec (l : list pyval) (prev : pyval) :
  keyed prev -> Forall keyed l ->
  exists n, run_ascending prev l = Ok n /\ (n <= List.length l)%nat
            /\ StronglySorted R (prev :: firstn n l).
Proof.
  intros Hp Hl. revert prev Hp. induction Hl as [|x l Hx Hl IH]; intros prev Hp.
  - exists 0%nat. repeat split; auto. repeat constructor.
  - cbn [run_ascending]. rewrite (py_lt_key x prev Hx Hp). cbn [bind].
    destruct (ext_ltb (key_of x) (key_of prev)) eqn:E.
    + exists 0%nat. split; [reflexivity|]. split; [lia|]. repeat constructor.
    + destruct (IH x Hx) as [n [En [Hn Hs]]]. rewrite En. cbn [bind].
      exists (S n). split; [reflexivity|]. split; [simpl; lia|].
      cbn [firstn]. constructor; [exact Hs|].
      inversion Hs as [|? ? _ Hall]; subst. constructor; [exact E|].
      eapply Forall_impl; [|exact Hall]. intros y Hy.
      apply (R_trans prev x y); [exact E|exact Hy].
Qed.

Lemma run_descending_spec (l : list pyval) (prev : pyval) :
  keyed prev -> Forall keyed l ->
  exists n, run_descending prev l = Ok n /\ (n <= List.length l)%nat
            /\ StronglySorted D (prev :: firstn n l).
Proof.
  intros Hp Hl. revert prev Hp. induction Hl as [|x l Hx Hl IH]; intros prev Hp.
  - exists 0%nat. repeat split; auto. repeat constructor.
  - cbn [run_descending]. rewrite (py_lt_key x prev Hx Hp). cbn [bind].
    destruct (ext_ltb (key_of x) (key_of prev)) eqn:E.
    + destruct (IH x Hx) as [n [En [Hn Hs]]]. rewrite En. cbn [bind].
      exists (S n). split; [reflexivity|]. split; [simpl; lia|].
      cbn [firstn]. constructor; [exact Hs|].
      inversion Hs as [|? ? _ Hall]; subst. constructor; [exact E|].
      eapply Forall_impl; [|exact Hall]. intros y Hy. unfold D in *.
      apply (ext_lt_trans _ (key_of x)); assumption.
    + exists 0%nat. split; [reflexivity|]. split; [lia|]. repeat constructor.
Qed.

(** The first run, put in ascending order, is in order. *)
Lemma count_run_spec (a b : pyval) (rest : list pyval) :
  Forall keyed (a :: b :: rest) ->
  exists n descending,
    count_run (a :: b :: rest) = Ok (n, descending)
    /\ (1 <= n <= List.length (a :: b :: rest))%nat
    /\ StronglySorted R
         (if descending then rev (firstn n (a :: b :: rest))
          else firstn n (a :: b :: rest)).
Proof.
  intros H. inversion H as [|? ? Ha H']; subst.
  inversion H' as [|? ? Hb Hrest]; subst.
  cbn [count_run]. rewrite (py_lt_key b a Hb Ha). cbn [bind].
  destruct (ext_ltb (key_of b) (key_of a)) eqn:E.
  - destruct (run_descending_spec rest b Hb Hrest) as [n [En [Hn Hs]]].
    rewrite En. cbn [bind]. exists (S (S n)), true.
    split; [reflexivity|]. split; [simpl; lia|].
    apply descending_rev. cbn [firstn]. constructor; [exact Hs|].
    inversion Hs as [|? ? _ Hall]; subst. constructor; [exact E|].
    eapply Forall_impl; [|exact Hall]. intros y Hy. unfold D in *.
    apply (ext_lt_trans _ (key_of b)); assumption.
  - destruct (run_ascending_spec rest b Hb Hrest) as [n [En [Hn Hs]]].
    rewrite En. cbn [bind]. exists (S (S n)), false.
    split; [reflexivity|]. split; [simpl; lia|].
    cbn [firstn]. constructor; [exact Hs|].
    inversion Hs as [|? ? _ Hall]; subst. constructor; [exact E|].
    eapply Forall_impl; [|exact Hall]. intros y Hy.
    apply (R_trans a b y); [exact E|exact Hy].
Qed.

Lemma nth_split_at (run : list pyval) (p : nat) :
  (p < List.length run)%nat ->
  run = firstn p run ++ nth p run PNone :: skipn (S p) run.
Proof.
  revert p. induction run as [|x run IH]; intros p Hp; [simpl in Hp; lia|].
  destruct p as [|p]; [reflexivity|].
  cbn [firstn nth skipn app]. f_equal. apply IH. simpl in Hp. lia.
Qed.

(** The binary search ends at a place with nothing greater than the pivot
    before it and nothing but greater elements from it on. *)
Lemma bisect_spec (run : list pyval) (pivot : pyval) (fuel l r : nat) :
  StronglySorted R run -> Forall keyed run -> keyed pivot ->
  (l < r <= List.length run)%nat -> (r - l <= fuel)%nat ->
  Forall (fun y => R y pivot) (firstn l run) ->
  Forall (fun y => D y pivot) (skipn r run) ->
  exists pos,
    bisect fuel run pivot l r = Ok pos /\ (pos <= List.length run)%nat
    /\ Forall (fun y => R y pivot) (firstn pos run)
    /\ Forall (fun y => D y pivot) (skipn pos run).
Proof.
  intros Hs Hk Hp. revert l r.
  induction fuel as [|fuel IH]; intros l r Hlr Hf Hlow Hhigh; [lia|].
  cbn [bisect].
  set (p := (l + (r - l) / 2)%nat).
  assert (l <= p < r)%nat as Hpr.
  { subst p. pose proof (Nat.Div0.div_le_upper_bound (r - l) 2 (r - l)) as Hd.
    assert ((r - l) / 2 < r - l)%nat by (apply Nat.div_lt; lia). lia. }
  assert (p < List.length run)%nat as Hpl by lia.
  pose proof (nth_split_at run p Hpl) as Hsplit.
  assert (keyed (nth p run PNone)) as Hkp.
  { rewrite Forall_forall in Hk. apply Hk. apply nth_In. exact Hpl. }
  rewrite (py_lt_key pivot (nth p run PNone) Hp Hkp). cbn [bind].
  rewrite Hsplit in Hs. apply SS_app_inv in Hs as [Hs1 [Hs2 Hcross]].
  inversion Hs2 as [|? ? Hs3 Hafter]; subst.
  destruct (ext_ltb (key_of pivot) (key_of (nth p run PNone))) eqn:E.
  - assert (Forall (fun y => D y pivot) (skipn p run)) as Hhigh'.
    { rewrite Hsplit at 1. rewrite skipn_app, skipn_firstn_comm.
      replace (p - p)%nat with 0%nat by lia.
      rewrite length_firstn. replace (p - Nat.min p (List.length run))%nat with 0%nat by lia.
      cbn [firstn skipn app]. constructor; [exact E|].
      eapply Forall_impl; [|exact Hafter]. intros y Hy. unfold D, R in *.
      apply (ext_lt_le_trans _ (key_of (nth p run PNone))); assumption. }
    destruct (Nat.ltb_spec l p) as [Hlt|Hge].
    + apply IH; [lia|lia|exact Hlow|exact Hhigh'].
    + exists l. split; [reflexivity|]. split; [lia|]. split; [exact Hlow|].
      replace l with p by lia. exact Hhigh'.
  - assert (Forall (fun y => R y pivot) (firstn (S p) run)) as Hlow'.
    { rewrite Hsplit at 1. rewrite firstn_app, firstn_firstn.
      replace (Nat.min (S p) p) with p by lia.
      rewrite length_firstn.
      replace (S p - Nat.min p (List.length run))%nat with 1%nat by lia.
      cbn [firstn]. apply Forall_app. split.
      - apply Forall_forall. intros y Hy.
        apply (R_trans y (nth p run PNone) pivot); [|exact E].
        apply Hcross; [exact Hy|left; reflexivity].
      - constructor; [exact E|constructor]. }
    destruct (Nat.ltb_spec (S p) r) as [Hlt|Hge].
    + apply IH; [lia|lia|exact Hlow'|exact Hhigh].
    + exists (S p). split; [reflexivity|]. split; [lia|]. split; [exact Hlow'|].
      replace (S p) with r by lia. exact Hhigh.
Qed.

Lemma insert_sorted (run : list pyval) (pivot : pyval) (pos : nat) :
  StronglySorted R run ->
  Forall (fun y => R y pivot) (firstn pos run) ->
  Forall (fun y => D y pivot) (skipn pos run) ->
  StronglySorted R (firstn pos run ++ pivot :: skipn pos run).
Proof.
  intros Hs Hlow Hhigh.
  rewrite <- (firstn_skipn pos run) in Hs.
  apply SS_app_inv in Hs as [Hs1 [Hs2 Hcross]].
  apply SS_app; [exact Hs1| |].
  - constructor; [exact Hs2|].
    eapply Forall_impl; [|exact Hhigh]. intros y Hy. unfold D, R in *.
    apply ext_lt_le. exact Hy.
  - intros x y Hx [<-|Hy].
    + rewrite Forall_forall in Hlow. apply Hlow. exact Hx.
    + apply Hcross; assumption.
Qed.

Lemma binarysort_spec (rest run : list pyval) :
  StronglySorted R run -> Forall keyed run -> Forall keyed rest -> run <> [] ->
  exists r, binarysort run rest = Ok r /\ StronglySorted R r
            /\ Permutation (run ++ rest) r.
Proof.
  intros Hs Hk Hrest. revert run Hs Hk.
  induction Hrest as [|pivot rest Hp Hrest IH]; intros run Hs Hk Hne.
  - exists run. rewrite app_nil_r. repeat split; auto.
  - cbn [binarysort].
    destruct (bisect_spec run pivot (List.length run) 0 (List.length run) Hs Hk Hp)
      as [pos [Eb [Hpos [Hlow Hhigh]]]].
    + destruct run; [contradiction|]. simpl. lia.
    + lia.
    + constructor.
    + rewrite skipn_all. constructor.
    + rewrite Eb. cbn [bind].
      destruct (IH (firstn pos run ++ pivot :: skipn pos run)) as [r [Er [Sr Pr]]].
      * apply insert_sorted; assumption.
      * apply Forall_app. rewrite <- (firstn_skipn pos run) in Hk.
        apply Forall_app in Hk as [Hk1 Hk2]. split; [exact Hk1|].
        constructor; assumption.
      * destruct (firstn pos run); discriminate.
      * exists r. split; [exact Er|]. split; [exact Sr|].
        rewrite <- Pr. rewrite <- (firstn_skipn pos run) at 1.
        rewrite <- !app_assoc. apply Permutation_app_head.
        cbn [app]. symmetry. apply Permutation_middle.
Qed.

(** On numbers other than NaN the sort returns the same numbers in
    order. *)
Lemma list_sort_spec (l : list pyval) :
  Forall keyed l ->
  exists r, list_sort l = Ok r /\ StronglySorted R r /\ Permutation l r.
Proof.
  intros Hk. destruct l as [|a [|b rest]].
  - exists []. repeat split; auto. constructor.
  - exists [a]. repeat split; auto. repeat constructor.
  - destruct (count_run_spec a b rest Hk) as [n [d [Ec [Hn Hs]]]].
    unfold list_sort. rewrite Ec. cbn [bind].
    rewrite <- (firstn_skipn n (a :: b :: rest)) in Hk.
    apply Forall_app in Hk as [Hk1 Hk2].
    destruct (binarysort_spec (skipn n (a :: b :: rest))
                (if d then rev (firstn n (a :: b :: rest))
                 else firstn n (a :: b :: rest))) as [r [Er [Sr Pr]]].
    + exact Hs.
    + destruct d; [|exact Hk1]. apply Forall_rev. exact Hk1.
    + exact Hk2.
    + destruct n as [|n]; [lia|]. destruct d; cbn [firstn rev].
      * intros Habs. apply app_eq_nil in Habs as [_ Habs]. discriminate.
      * discriminate.
    + exists r. split; [exact Er|]. split; [exact Sr|].
      rewrite <- Pr. rewrite <- (firstn_skipn n (a :: b :: rest)) at 1.
      apply Permutation_app_tail. destruct d; [apply Permutation_rev|reflexivity].
Qed.

End SortNumbers.

(** [sorted] on JSON numbers other than NaN: the same numbers, none less
    than one before it. *)
Lemma py_sorted_numbers (l : list pyval) :
  Forall (fun v => ordered_number v = true) l ->
  exists r, py_sorted (PList l) = Ok (PList r)
            /\ StronglySorted (fun a b => py_lt b a = Ok false) r
            /\ Permutation l r.
Proof.
  intros Hl.
  assert (Forall (fun v => num_key v <> None) l) as Hk.
  { eapply Forall_impl; [|exact Hl]. exact ordered_number_key. }
  destruct (list_sort_spec l Hk) as [r [Er [Sr Pr]]].
  exists r. unfold py_sorted. cbn [py_iter bind]. rewrite Er.
  split; [reflexivity|]. split; [|exact Pr].
  assert (Forall (fun v => num_key v <> None) r) as Hkr.
  { eapply Permutation_Forall; [exact Pr|exact Hk]. }
  clear - Sr Hkr. induction Sr as [|a r Sr IH Ha]; [constructor|].
  inversion Hkr as [|? ? Hka Hkr']; subst.
  constructor; [apply IH; exact Hkr'|].
  rewrite Forall_forall in *. intros y Hy.
  rewrite (py_lt_key y a (Hkr' y Hy) Hka). f_equal. exact (Ha y Hy).
Qed.

Lemma py_eq_str (v : pyval) (s : str) :
  py_eq v (PStr s) = true <-> v = PStr s.
Proof.
  destruct v as [| b | n | t | l | d | f]; cbn [py_eq]; try (split; congruence).
  rewrite str_eqb_eq. split; congruence.
Qed.

(** ** Dispatch *)

Section Dispatch.

Variable film : result (list pydict).
Variable now : str.
Variable self : HTTPServer.

(** The keys of the route table. *)
Lemma collections_keys (c : str) :
  dict_get str_eqb (collections film) c = None
  <-> ~ In c [lit "headers"; lit "movies"; lit "sort"].
Proof.
  cbn [collections dict_get In].
  destruct (str_eqb (lit "headers") c) eqn:E1;
    [apply str_eqb_eq in E1; split; [discriminate|intros H; exfalso; apply H; auto]|].
  destruct (str_eqb (lit "movies") c) eqn:E2;
    [apply str_eqb_eq in E2; split; [discriminate|intros H; exfalso; apply H; auto]|].
  destruct (str_eqb (lit "sort") c) eqn:E3;
    [apply str_eqb_eq in E3; split; [discriminate|intros H; exfalso; apply H; auto]|].
  apply str_eqb_neq in E1, E2, E3.
  split; [|reflexivity]. intros _ [H|[H|[H|[]]]]; contradiction.
Qed.

(** What [handle_request] builds from a status code other than 200. *)
Lemma handle_request_status (request : Request) (c : str) (code : Z) (msg : str) :
  index1 (split (lit "/") (resource request)) = Ok c ->
  dispatch film request c = Ok (code, None) ->
  code <> 200 ->
  dict_get Z.eqb STATUS_CODES code = Some msg ->
  handle_request film now self request
  = Ok {| resp_http_version := http_version request;
          status_code := code;
          status_message := msg;
          resp_headers := _generate_response_headers now self msg;
          resp_body := msg |}.
Proof.
  intros Hc Hd Hcode Hmsg. unfold handle_request.
  rewrite Hc. cbn [bind]. rewrite Hd. cbn [bind].
  apply Z.eqb_neq in Hcode. rewrite Hcode. cbn [negb].
  unfold Response_init, dict_getitem. rewrite Hmsg. reflexivity.
Qed.

(** What [handle_request] builds from the pair a handler returns. *)
Lemma handle_request_handler (request : Request) (c : str)
    (coll : list (str * handler)) (h : handler) :
  index1 (split (lit "/") (resource request)) = Ok c ->
  dict_get str_eqb (collections film) c = Some coll ->
  dict_get str_eqb coll (method request) = Some h ->
  dispatch film request c
  = ('(code, content) <- h request ;; Ok (code, Some content)).
Proof.
  intros Hc Hcoll Hh. unfold dispatch, dict_getitem.
  rewrite Hcoll, Hh. reflexivity.
Qed.

(** C1.  Dispatch resolves by (collection, method).  With [c] the segment
    behind the leading slash: when [c] is no key of the route table the
    response is 404 with content "Not Found"; when [c] is a key and the
    method is none of its collection, it is 405 with content "Not Allowed";
    and two requests with the same collection and the same method are
    handed to the same handler, the one the table binds to the pair. *)
Theorem C1_dispatch_by_collection_and_method (request : Request) (c : str) :
  index1 (split (lit "/") (resource request)) = Ok c ->
  (dict_get str_eqb (collections film) c = None ->
   exists resp, handle_request film now self request = Ok resp
                /\ status_code resp = 404
                /\ resp_body resp = lit "Not Found")
  /\ (forall coll, dict_get str_eqb (collections film) c = Some coll ->
      dict_get str_eqb coll (method request) = None ->
      exists resp, handle_request film now self request = Ok resp
                   /\ status_code resp = 405
                   /\ resp_body resp = lit "Not Allowed")
  /\ (forall coll h request',
      dict_get str_eqb (collections film) c = Some coll ->
      dict_get str_eqb coll (method request) = Some h ->
      index1 (split (lit "/") (resource request')) = Ok c ->
      method request' = method request ->
      dispatch film request c
      = ('(code, content) <- h request ;; Ok (code, Some content))
      /\ dispatch film request' c
         = ('(code, content) <- h request' ;; Ok (code, Some content))).
Proof.
  intros Hc. split; [|split].
  - intros Hnone. eexists. split.
    + apply (handle_request_status request c 404 (lit "Not Found")); auto.
      * unfold dispatch, dict_getitem. rewrite Hnone. reflexivity.
      * lia.
    + split; reflexivity.
  - intros coll Hcoll Hnone. eexists. split.
    + apply (handle_request_status request c 405 (lit "Not Allowed")); auto.
      * unfold dispatch, dict_getitem. rewrite Hcoll, Hnone. reflexivity.
      * lia.
    + split; reflexivity.
  - intros coll h request' Hcoll Hh Hc' Hm. split.
    + apply (handle_request_handler request c coll h); assumption.
    + apply (handle_request_handler request' c coll h); try assumption.
      rewrite Hm. exact Hh.
Qed.

(** C4, as the code has it.  A resource that splits on "/" into fewer than
    two segments has no segment 1: the lookup of the collection raises
    [IndexError] and no response is built. *)
Theorem C4_short_resource_raises (request : Request) :
  (List.length (split (lit "/") (resource request)) < 2)%nat ->
  handle_request film now self request = Raises IndexError.
Proof.
  intros Hlen. unfold handle_request, index1.
  destruct (split (lit "/") (resource request)) as [|a [|b l]]; simpl in *;
    try reflexivity; lia.
Qed.

(** C9.  The Content-Length header of every response is the number of
    characters of its body; the header is built from the length of the
    content before encoding, which for a content such as "é" is not the
    number of octets of its UTF-8 form. *)
Theorem C9_content_length_is_character_count :
  (forall request resp,
      handle_request film now self request = Ok resp ->
      dict_get str_eqb (resp_headers resp) (lit "Content-Length")
      = Some (HInt (len (resp_body resp))))
  /\ (forall content,
      dict_get str_eqb (_generate_response_headers now self content)
        (lit "Content-Length") = Some (HInt (len content)))
  /\ (exists content octets,
      utf8_encode content = Ok octets
      /\ len octets <> len content
      /\ dict_get str_eqb (_generate_response_headers now self content)
           (lit "Content-Length") = Some (HInt (len content))).
Proof.
  split; [|split].
  - intros request resp H. unfold handle_request in H.
    destruct (index1 _) as [c|]; [|discriminate]. cbn [bind] in H.
    destruct (dispatch film request c) as [[code bound]|]; [|discriminate].
    cbn [bind] in H.
    match type of H with
    | bind ?m _ = _ => destruct m as [content|]; [|discriminate]
    end.
    cbn [bind] in H.
    destruct (dict_getitem Z.eqb STATUS_CODES code) as [msg|]; [|discriminate].
    cbn [bind] in H. unfold Response_init in H.
    destruct (dict_getitem Z.eqb STATUS_CODES code) as [msg'|]; [|discriminate].
    cbn [bind] in H. injection H as <-. reflexivity.
  - intros content. reflexivity.
  - exists [233], [195; 169]. repeat split. discriminate.
Qed.

End Dispatch.

(** ** The handlers *)

Section Handlers.

Variable film : result (list pydict).
Variable now : str.
Variable self : HTTPServer.

Lemma collections_sort :
  dict_get str_eqb (collections film) (lit "sort")
  = Some [(lit "POST", sort_numbers)].
Proof. reflexivity. Qed.

Lemma collections_movies :
  dict_get str_eqb (collections film) (lit "movies")
  = Some [(lit "GET", search_movie_title film)].
Proof. reflexivity. Qed.

(** What [handle_request] builds when the handler bound to the request
    returns a pair. *)
Lemma handle_request_served (request : Request) (c : str)
    (coll : list (str * handler)) (h : handler) (code : Z) (content msg : str) :
  index1 (split (lit "/") (resource request)) = Ok c ->
  dict_get str_eqb (collections film) c = Some coll ->
  dict_get str_eqb coll (method request) = Some h ->
  h request = Ok (code, content) ->
  dict_get Z.eqb STATUS_CODES code = Some msg ->
  handle_request film now self request
  = Ok (let content := if code =? 200 then content else msg in
        {| resp_http_version := http_version request;
           status_code := code;
           status_message := msg;
           resp_headers := _generate_response_headers now self content;
           resp_body := content |}).
Proof.
  intros Hc Hcoll Hh Hr Hmsg. unfold handle_request.
  rewrite Hc. cbn [bind].
  rewrite (handle_request_handler film request c coll h Hc Hcoll Hh).
  rewrite Hr. cbn [bind]. unfold Response_init, dict_getitem. rewrite Hmsg.
  destruct (code =? 200); reflexivity.
Qed.

(** When the handler raises, so does [handle_request]: the call stands in
    the [else] branch of the [try], out of reach of its [except]. *)
Lemma handle_request_handler_raises (request : Request) (c : str)
    (coll : list (str * handler)) (h : handler) (e : exn) :
  index1 (split (lit "/") (resource request)) = Ok c ->
  dict_get str_eqb (collections film) c = Some coll ->
  dict_get str_eqb coll (method request) = Some h ->
  h request = Raises e ->
  handle_request film now self request = Raises e.
Proof.
  intros Hc Hcoll Hh Hr. unfold handle_request.
  rewrite Hc. cbn [bind].
  rewrite (handle_request_handler film request c coll h Hc Hcoll Hh).
  rewrite Hr. reflexivity.
Qed.

(** C7, as the code has it.  A POST to the sort collection whose body is
    an object binding "input" to a list of numbers, none of them NaN and
    the ints within the limit of the conversion to text, is answered with
    status 200 and the JSON text of the same numbers, none less than one
    before it; without a body the answer is status 200 and the text of the
    empty list. *)
Theorem C7_sort_numbers_without_nan (request : Request) :
  method request = lit "POST" ->
  index1 (split (lit "/") (resource request)) = Ok (lit "sort") ->
  (forall d l,
      body request = PDict d ->
      dict_get str_eqb d (lit "input") = Some (PList l) ->
      Forall (fun v => ordered_number v = true) l ->
      Forall within_int_limit l ->
      exists r resp,
        StronglySorted (fun a b => py_lt b a = Ok false) r /\ Permutation l r
        /\ handle_request film now self request = Ok resp
        /\ status_code resp = 200
        /\ resp_body resp = json_dumps (PList r))
  /\ (body request = PNone ->
      exists resp,
        handle_request film now self request = Ok resp
        /\ status_code resp = 200
        /\ resp_body resp = lit "[]").
Proof.
  intros Hm Hc. split.
  - intros d l Hb Hin Hnum _.
    destruct (py_sorted_numbers l Hnum) as [r [Hs [Hsorted Hperm]]].
    exists r. eexists. split; [exact Hsorted|]. split; [exact Hperm|]. split.
    + apply (handle_request_served request (lit "sort") _ sort_numbers 200
               (json_dumps (PList r)) (lit "OK") Hc collections_sort).
      * rewrite Hm. reflexivity.
      * unfold sort_numbers, json_content, sort_numbers_func. rewrite Hb.
        destruct d as [|kv d]; [discriminate|]. cbn [truthy negb].
        unfold py_getitem, dict_getitem. rewrite Hin. cbn [bind].
        rewrite Hs. reflexivity.
      * reflexivity.
    + split; reflexivity.
  - intros Hb. eexists. split.
    + apply (handle_request_served request (lit "sort") _ sort_numbers 200
               (lit "[]") (lit "OK") Hc collections_sort).
      * rewrite Hm. reflexivity.
      * unfold sort_numbers, json_content, sort_numbers_func. rewrite Hb.
        reflexivity.
      * reflexivity.
    + split; reflexivity.
Qed.

(** C10.  A POST to the sort collection whose body is a non-empty object
    without the key "input" makes the handler raise [KeyError]; nothing
    catches it and no (status, content) pair is returned. *)
Theorem C10_sort_missing_input_raises (request : Request) (d : pydict) :
  method request = lit "POST" ->
  index1 (split (lit "/") (resource request)) = Ok (lit "sort") ->
  body request = PDict d ->
  d <> [] ->
  dict_get str_eqb d (lit "input") = None ->
  sort_numbers request = Raises KeyError
  /\ handle_request film now self request = Raises KeyError.
Proof.
  intros Hm Hc Hb Hd Hin.
  assert (sort_numbers request = Raises KeyError) as Hr.
  { unfold sort_numbers, json_content, sort_numbers_func. rewrite Hb.
    destruct d as [|kv d]; [contradiction|]. cbn [truthy negb].
    unfold py_getitem, dict_getitem. rewrite Hin. reflexivity. }
  split; [exact Hr|].
  apply (handle_request_handler_raises request (lit "sort") _ sort_numbers
           KeyError Hc collections_sort); [|exact Hr].
  rewrite Hm. reflexivity.
Qed.

(** The loop of the movie search on rows that all have a "Title". *)
Lemma search_rows_first (title : str) (pre : list pydict) (row : pydict)
    (post : list pydict) :
  Forall (fun r => exists t, dict_get str_eqb r (lit "Title") = Some t
                             /\ t <> PStr title) pre ->
  dict_get str_eqb row (lit "Title") = Some (PStr title) ->
  search_rows title (pre ++ row :: post) = Ok (PDict row).
Proof.
  intros Hpre Hrow. induction Hpre as [|r pre [t [Ht Hne]] _ IH].
  - cbn [app search_rows]. unfold dict_getitem. rewrite Hrow. cbn [bind].
    rewrite (proj2 (py_eq_str _ _) eq_refl). reflexivity.
  - cbn [app search_rows]. unfold dict_getitem. rewrite Ht. cbn [bind].
    destruct (py_eq t (PStr title)) eqn:E.
    + apply py_eq_str in E. contradiction.
    + exact IH.
Qed.

Lemma search_rows_none (title : str) (rows : list pydict) :
  Forall (fun r => exists t, dict_get str_eqb r (lit "Title") = Some t
                             /\ t <> PStr title) rows ->
  search_rows title rows = Ok PNone.
Proof.
  induction 1 as [|r rows [t [Ht Hne]] _ IH].
  - reflexivity.
  - cbn [search_rows]. unfold dict_getitem. rewrite Ht. cbn [bind].
    destruct (py_eq t (PStr title)) eqn:E.
    + apply py_eq_str in E. contradiction.
    + exact IH.
Qed.

(** C8.  A GET to the movies collection compares the last segment of the
    resource with the "Title" of each record, in the order of the file.
    The first record whose title is equal is returned whole, as a JSON
    object with status 200; when no title is equal the answer is 404 with
    content "Not Found". *)
Theorem C8_movie_lookup (request : Request) (rows : list pydict) :
  film = Ok rows ->
  method request = lit "GET" ->
  index1 (split (lit "/") (resource request)) = Ok (lit "movies") ->
  let title := last (split (lit "/") (resource request)) [] in
  (forall pre row post,
      rows = pre ++ row :: post ->
      Forall (fun r => exists t, dict_get str_eqb r (lit "Title") = Some t
                                 /\ t <> PStr title) pre ->
      dict_get str_eqb row (lit "Title") = Some (PStr title) ->
      exists resp,
        handle_request film now self request = Ok resp
        /\ status_code resp = 200
        /\ resp_body resp = json_dumps (PDict row))
  /\ (Forall (fun r => exists t, dict_get str_eqb r (lit "Title") = Some t
                                 /\ t <> PStr title) rows ->
      exists resp,
        handle_request film now self request = Ok resp
        /\ status_code resp = 404
        /\ resp_body resp = lit "Not Found").
Proof.
  intros Hfilm Hm Hc title. split.
  - intros pre row post Hrows Hpre Hrow. eexists. split.
    + apply (handle_request_served request (lit "movies") _
               (search_movie_title film) 200 (json_dumps (PDict row)) (lit "OK")
               Hc collections_movies).
      * rewrite Hm. reflexivity.
      * unfold search_movie_title, json_content, search_movie_title_func.
        rewrite Hfilm. cbn [bind]. rewrite Hrows.
        fold title. rewrite (search_rows_first title pre row post Hpre Hrow).
        reflexivity.
      * reflexivity.
    + split; reflexivity.
  - intros Hall. eexists. split.
    + apply (handle_request_served request (lit "movies") _
               (search_movie_title film) 404 (lit "Not Found") (lit "Not Found")
               Hc collections_movies).
      * rewrite Hm. reflexivity.
      * unfold search_movie_title, json_content, search_movie_title_func.
        rewrite Hfilm. cbn [bind].
        fold title. rewrite (search_rows_none title rows Hall).
        reflexivity.
      * reflexivity.
    + split; reflexivity.
Qed.

End Handlers.

(** ** Encoding a response *)

Lemma format_response_tpl (a b c d e : str) :
  format HTTP_RESPONSE_TPL [a; b; c; d; e]
  = Ok (a ++ lit " " ++ b ++ lit " " ++ c ++ CRLF ++ d ++ CRLF ++ CRLF ++ e ++ CRLF).
Proof. reflexivity. Qed.

(** C6.  [send_response] writes, and returns, the UTF-8 octets of: the
    version, the status code in decimal and the status message separated by
    single spaces; CRLF; the header lines "Name: value" in the order of the
    mapping, joined by CRLF; CRLF CRLF; the body; CRLF. *)
Theorem C6_send_response_wire_format (socket : TcpSocket) (response : Response) :
  send_response socket response
  = (data <- utf8_encode
               (resp_http_version response ++ lit " "
                ++ str_of_int (status_code response) ++ lit " "
                ++ status_message response ++ CRLF
                ++ join CRLF
                     (map (fun '(key, value) => key ++ lit ": " ++ hval_format value)
                          (resp_headers response))
                ++ CRLF ++ CRLF ++ resp_body response ++ CRLF) ;;
     Ok (socket ++ [data], data)).
Proof.
  unfold send_response, response_text. rewrite format_response_tpl.
  reflexivity.
Qed.

(** ** Decoding a request *)

Lemma unpack3_fails {A} (l : list A) :
  (exists e, unpack3 l = Raises e) <-> List.length l <> 3%nat.
Proof.
  destruct l as [|a [|b [|c [|d l]]]]; simpl; split;
    try (intros _; eexists; reflexivity); try (intros [e H]; discriminate);
    try (intros H; exfalso; apply H; reflexivity); intros _; lia.
Qed.

Lemma unpack2_fails {A} (l : list A) :
  (exists e, unpack2 l = Raises e) <-> List.length l <> 2%nat.
Proof.
  destruct l as [|a [|b [|c l]]]; simpl; split;
    try (intros _; eexists; reflexivity); try (intros [e H]; discriminate);
    try (intros H; exfalso; apply H; reflexivity); intros _; lia.
Qed.

Lemma unpack2_ok {A} (l : list A) (a b : A) :
  unpack2 l = Ok (a, b) <-> l = [a; b].
Proof.
  destruct l as [|x [|y [|z l]]]; simpl; split; try discriminate;
    intros H; injection H as -> ->; reflexivity.
Qed.

(** The header loop fails exactly when some line does not split in two. *)
Lemma _get_headers_from_fails (raw_headers : list str) (acc : list (str * str)) :
  (exists e, _get_headers_from acc raw_headers = Raises e)
  <-> (exists h, In h raw_headers /\ List.length (split (lit ": ") h) <> 2%nat).
Proof.
  revert acc. induction raw_headers as [|h rest IH]; intros acc; cbn [_get_headers_from].
  - split; [intros [e H]; discriminate | intros [h [[] _]]].
  - destruct (unpack2 (split (lit ": ") h)) as [[k v]|e] eqn:E; cbn [bind].
    + rewrite IH. apply unpack2_ok in E. split.
      * intros [h' [Hin Hl]]. exists h'. split; [right; exact Hin|exact Hl].
      * intros [h' [[<-|Hin] Hl]].
        -- rewrite E in Hl. contradiction.
        -- exists h'. split; assumption.
    + split; [|intros _; eexists; reflexivity].
      intros _. exists h. split; [left; reflexivity|].
      apply unpack2_fails. eexists. exact E.
Qed.

(** The mapping the header loop builds: every line splits into a name and a
    value, stored in turn. *)
Lemma _get_headers_from_ok (raw_headers : list str) (acc hs : list (str * str)) :
  _get_headers_from acc raw_headers = Ok hs ->
  exists pairs,
    Forall2 (fun line kv => split (lit ": ") line = [fst kv; snd kv])
      raw_headers pairs
    /\ hs = fold_left (fun d kv => dict_setitem str_eqb d (fst kv) (snd kv))
              pairs acc.
Proof.
  revert acc. induction raw_headers as [|h rest IH]; intros acc H;
    cbn [_get_headers_from] in H.
  - injection H as <-. exists []. split; [constructor|reflexivity].
  - destruct (unpack2 (split (lit ": ") h)) as [[k v]|e] eqn:E; [|discriminate].
    cbn [bind] in H. apply unpack2_ok in E.
    destruct (IH _ H) as [pairs [Hf Hhs]].
    exists ((k, v) :: pairs). split; [constructor; assumption|exact Hhs].
Qed.

Lemma _get_body_fails (json_loads : str -> result pyval) (raw_body : str) :
  (exists e, _get_body json_loads raw_body = Raises e)
  <-> raw_body <> [] /\ exists e, json_loads raw_body = Raises e.
Proof.
  destruct raw_body as [|c s]; cbn [_get_body].
  - split; [intros [e H]; discriminate | intros [H _]; contradiction].
  - split; [intros H; split; [discriminate|exact H] | intros [_ H]; exact H].
Qed.

(** The lines [l[1:-2]] keeps are those at the positions 1 to n-3. *)
Lemma slice_1_m2_nth {A} (l : list A) (j : nat) :
  (1 <= j)%nat ->
  nth_error (slice_1_m2 l) (j - 1)
  = if (j + 2 <? List.length l)%nat then nth_error l j else None.
Proof.
  intros Hj. unfold slice_1_m2. rewrite nth_error_skipn.
  replace (1 + (j - 1))%nat with j by lia.
  rewrite nth_error_firstn.
  destruct (Nat.ltb_spec (j + 2) (List.length l));
    destruct (Nat.ltb_spec j (List.length l - 2)); try reflexivity; lia.
Qed.

Lemma slice_1_m2_framed {A} (x y z : A) (l : list A) :
  slice_1_m2 (x :: l ++ [y; z]) = l.
Proof.
  unfold slice_1_m2. cbn [List.length]. rewrite length_app. cbn [List.length].
  replace (S (List.length l + 2) - 2)%nat with (S (List.length l)) by lia.
  cbn [firstn skipn]. rewrite firstn_app, firstn_all, Nat.sub_diag.
  cbn [firstn]. apply app_nil_r.
Qed.

Lemma last_framed {A} (x y z d : A) (l : list A) :
  last (x :: l ++ [y; z]) d = z.
Proof.
  change (x :: l ++ [y; z]) with ((x :: l) ++ [y; z]).
  replace ((x :: l) ++ [y; z]) with (((x :: l) ++ [y]) ++ [z])
    by (rewrite <- app_assoc; reflexivity).
  apply last_last.
Qed.

Section Decode.

Variable json_loads : str -> result pyval.

(** [process_request] behind the UTF-8 decoding. *)
Lemma process_request_text (raw : bytes) (text : str) :
  utf8_decode raw = Ok text ->
  process_request json_loads raw
  = (let lines := split CRLF text in
     '(method, resource, http_version) <-
       unpack3 (split (lit " ") (hd [] lines)) ;;
     headers <- _get_headers (slice_1_m2 lines) ;;
     body <- _get_body json_loads (last lines []) ;;
     Ok {| method := method; resource := resource;
           http_version := http_version; headers := headers; body := body |}).
Proof. intros H. unfold process_request. rewrite H. reflexivity. Qed.

(** C3, as the code has it.  Of the n lines of a request, the lines 1 to
    n-3, all but the first and the last two, are the header lines.  Each
    is split on ": " into a name and a value, stored in the mapping in
    turn; decoding fails when one of them does not split into exactly two
    parts. *)
Theorem C3_header_lines_skip_last_two (raw : bytes) (text : str) :
  utf8_decode raw = Ok text ->
  let lines := split CRLF text in
  (forall j, (1 <= j)%nat ->
      nth_error (slice_1_m2 lines) (j - 1)
      = if (j + 2 <? List.length lines)%nat then nth_error lines j else None)
  /\ (forall req, process_request json_loads raw = Ok req ->
      exists pairs,
        Forall2 (fun line kv => split (lit ": ") line = [fst kv; snd kv])
          (slice_1_m2 lines) pairs
        /\ headers req
           = fold_left (fun d kv => dict_setitem str_eqb d (fst kv) (snd kv))
               pairs [])
  /\ ((exists h, In h (slice_1_m2 lines)
                 /\ List.length (split (lit ": ") h) <> 2%nat) ->
      exists e, process_request json_loads raw = Raises e).
Proof.
  intros Htext lines. split; [|split].
  - intros j Hj. apply slice_1_m2_nth. exact Hj.
  - intros req H. rewrite (process_request_text raw text Htext) in H.
    cbv zeta in H. fold lines in H.
    destruct (unpack3 _) as [[[m r] v]|]; [|discriminate]. cbn [bind] in H.
    destruct (_get_headers (slice_1_m2 lines)) as [hs|] eqn:Eh; [|discriminate].
    cbn [bind] in H.
    destruct (_get_body json_loads _) as [b|]; [|discriminate].
    cbn [bind] in H. injection H as <-. cbn [headers].
    apply _get_headers_from_ok. exact Eh.
  - intros Hbad. rewrite (process_request_text raw text Htext).
    cbv zeta. fold lines.
    destruct (unpack3 _) as [[[m r] v]|e]; [|eexists; reflexivity].
    cbn [bind].
    apply (_get_headers_from_fails (slice_1_m2 lines) []) in Hbad as [e He].
    unfold _get_headers. rewrite He. eexists. reflexivity.
Qed.

(** C5, as the code has it.  [process_request] raises exactly when the
    octets are not valid UTF-8, or the first line does not split on single
    spaces into exactly 3 tokens, or a header line does not split on ": "
    into exactly two parts, or the last line is non-empty and the JSON
    decoder rejects it.  An empty last line is no failure: the body is then
    [None]. *)
Theorem C5_decode_fails_iff_malformed (raw : bytes) :
  ((exists e, process_request json_loads raw = Raises e)
   <-> (exists e, utf8_decode raw = Raises e)
       \/ (exists text,
              utf8_decode raw = Ok text
              /\ let lines := split CRLF text in
                 (List.length (split (lit " ") (hd [] lines)) <> 3%nat
                  \/ (exists h, In h (slice_1_m2 lines)
                                /\ List.length (split (lit ": ") h) <> 2%nat)
                  \/ (last lines [] <> []
                      /\ exists e, json_loads (last lines []) = Raises e))))
  /\ (forall text req,
         utf8_decode raw = Ok text ->
         last (split CRLF text) [] = [] ->
         process_request json_loads raw = Ok req ->
         body req = PNone)
  /\ _get_body json_loads [] = Ok PNone.
Proof.
  split; [|split; [|reflexivity]].
  - destruct (utf8_decode raw) as [text|e0] eqn:Htext.
    2:{ unfold process_request. rewrite Htext. split.
        - intros _. left. eexists. reflexivity.
        - intros _. eexists. reflexivity. }
    rewrite (process_request_text raw text Htext). cbv zeta.
    set (lines := split CRLF text).
    pose proof (unpack3_fails (split (lit " ") (hd [] lines))) as H3.
    pose proof (_get_headers_from_fails (slice_1_m2 lines) []) as Hh.
    pose proof (_get_body_fails json_loads (last lines [])) as Hb.
    fold (_get_headers (slice_1_m2 lines)) in Hh.
    split.
    + intros Hfail. right. exists text. split; [reflexivity|]. fold lines.
      destruct (unpack3 _) as [[[m r] v]|e].
      2:{ left. apply H3. eexists. reflexivity. }
      cbn [bind] in Hfail.
      destruct (_get_headers (slice_1_m2 lines)) as [hs|e].
      2:{ right. left. apply Hh. eexists. reflexivity. }
      cbn [bind] in Hfail.
      destruct (_get_body json_loads (last lines [])) as [b|e].
      2:{ right. right. apply Hb. eexists. reflexivity. }
      destruct Hfail as [e He]. discriminate.
    + intros [[e He]|[text' [Ht Hbad]]]; [discriminate|].
      injection Ht as <-. fold lines in Hbad. cbv zeta in Hbad.
      destruct (unpack3 _) as [[[m r] v]|e]; [|eexists; reflexivity].
      cbn [bind].
      destruct (_get_headers (slice_1_m2 lines)) as [hs|e]; [|eexists; reflexivity].
      cbn [bind].
      destruct (_get_body json_loads (last lines [])) as [b|e]; [|eexists; reflexivity].
      destruct Hbad as [Hbad|[Hbad|Hbad]].
      * apply H3 in Hbad as [e He]. discriminate.
      * apply Hh in Hbad as [e He]. discriminate.
      * apply Hb in Hbad as [e He]. discriminate.
  - intros text req Htext Hlast H.
    rewrite (process_request_text raw text Htext) in H. cbv zeta in H.
    rewrite Hlast in H.
    destruct (unpack3 _) as [[[m r] v]|]; [|discriminate]. cbn [bind] in H.
    destruct (_get_headers _) as [hs|]; [|discriminate].
    cbn [bind _get_body] in H. injection H as <-. reflexivity.
Qed.

End Decode.

(** ** Round trip of a request *)

Lemma dict_get_absent {V} (d : list (str * V)) (k : str) :
  ~ In k (map fst d) -> dict_get str_eqb d k = None.
Proof.
  induction d as [|[k' v] d IH]; intros H; cbn [dict_get]; [reflexivity|].
  cbn [map fst In] in H.
  destruct (str_eqb k' k) eqn:E.
  - apply str_eqb_eq in E. exfalso. apply H. left. exact E.
  - apply IH. intros Hin. apply H. right. exact Hin.
Qed.

Lemma dict_setitem_fresh {V} (d : list (str * V)) (k : str) (v : V) :
  ~ In k (map fst d) -> dict_setitem str_eqb d k v = d ++ [(k, v)].
Proof.
  induction d as [|[k' v'] d IH]; intros H; cbn [dict_setitem app]; [reflexivity|].
  cbn [map fst In] in H.
  destruct (str_eqb k' k) eqn:E.
  - apply str_eqb_eq in E. exfalso. apply H. left. exact E.
  - f_equal. apply IH. intros Hin. apply H. right. exact Hin.
Qed.

Lemma split_header_line (h : str * str) :
  contains (lit ": ") (fst h) = false ->
  contains (lit ": ") (snd h) = false ->
  split (lit ": ") (header_line h) = [fst h; snd h].
Proof.
  intros Hk Hv. unfold header_line.
  apply (split_join (lit ": ") (fst h) [snd h] plain_colon_space).
  repeat constructor; assumption.
Qed.

(** The header loop reads back header lines with distinct names. *)
Lemma _get_headers_from_lines (hs acc : list (str * str)) :
  Forall (fun h => contains (lit ": ") (fst h) = false
                   /\ contains (lit ": ") (snd h) = false) hs ->
  NoDup (map fst (acc ++ hs)) ->
  _get_headers_from acc (map header_line hs) = Ok (acc ++ hs).
Proof.
  intros Hhs. revert acc. induction Hhs as [|[k v] hs [Hk Hv] _ IH]; intros acc Hnd.
  - cbn [map _get_headers_from]. rewrite app_nil_r. reflexivity.
  - cbn [map _get_headers_from].
    rewrite (split_header_line (k, v) Hk Hv). cbn [unpack2 bind fst snd].
    rewrite dict_setitem_fresh.
    + replace (acc ++ (k, v) :: hs) with ((acc ++ [(k, v)]) ++ hs)
        by (rewrite <- app_assoc; reflexivity).
      apply IH. rewrite <- app_assoc. exact Hnd.
    + rewrite map_app in Hnd. cbn [map fst] in Hnd.
      apply NoDup_remove_2 in Hnd. intros Hin. apply Hnd.
      apply in_or_app. left. exact Hin.
Qed.

Section RoundTrip.

Variable json_loads : str -> result pyval.

(** C2.  A request value whose method, resource and version hold no space,
    whose header names and values hold no ": ", whose header names are
    distinct, whose lines hold no CRLF and whose body line is empty or
    accepted by the JSON decoder, written in the wire framing and encoded
    in UTF-8, is decoded to the same method, resource, version, headers and
    body. *)
Theorem C2_decode_of_framed_request (m r v : str) (hs : list (str * str))
    (b : str) (j : pyval) :
  Forall (fun c => is_scalar c = true) (request_text m r v hs b) ->
  contains (lit " ") m = false ->
  contains (lit " ") r = false ->
  contains (lit " ") v = false ->
  Forall (fun h => contains (lit ": ") (fst h) = false
                   /\ contains (lit ": ") (snd h) = false) hs ->
  NoDup (map fst hs) ->
  Forall (fun line => contains CRLF line = false) (request_lines m r v hs b) ->
  _get_body json_loads b = Ok j ->
  exists raw,
    utf8_encode (request_text m r v hs b) = Ok raw
    /\ process_request json_loads raw
       = Ok {| method := m; resource := r; http_version := v;
               headers := hs; body := j |}.
Proof.
  intros Hscalar Hm Hr Hv Hhs Hnd Hlines Hbody.
  destruct (utf8_decode_encode (request_text m r v hs b)) as [raw [Henc Hdec]].
  { eapply Forall_impl; [|exact Hscalar]. intros c. apply is_scalar_spec. }
  exists raw. split; [exact Henc|].
  rewrite (process_request_text json_loads raw _ Hdec). cbv zeta.
  unfold request_text.
  assert (split CRLF (join CRLF (request_lines m r v hs b))
          = request_lines m r v hs b) as ->.
  { unfold request_lines in *. apply split_join; [apply plain_CRLF|exact Hlines]. }
  unfold request_lines. cbn [hd].
  rewrite slice_1_m2_framed, last_framed.
  assert (split (lit " ") (m ++ lit " " ++ r ++ lit " " ++ v) = [m; r; v]) as ->.
  { apply (split_join (lit " ") m [r; v] plain_space).
    repeat constructor; assumption. }
  cbn [unpack3 bind]. unfold _get_headers.
  rewrite (_get_headers_from_lines hs [] Hhs Hnd). cbn [bind app].
  rewrite Hbody. reflexivity.
Qed.

End RoundTrip.

(** ** Closed instances *)

Example split_request_line :
  split (lit " ") (lit "GET /movies/Alien HTTP/1.1")
  = [lit "GET"; lit "/movies/Alien"; lit "HTTP/1.1"].
Proof. reflexivity. Qed.

Example split_resource :
  split (lit "/") (lit "/movies/Alien") = [lit ""; lit "movies"; lit "Alien"].
Proof. reflexivity. Qed.

Example split_adjacent :
  split CRLF (lit "a" ++ CRLF ++ CRLF ++ lit "b") = [lit "a"; []; lit "b"].
Proof. reflexivity. Qed.

Example json_loads_plain_input : json_loads_plain input_312_text = Ok input_312.
Proof. reflexivity. Qed.

Example json_dumps_input : json_dumps input_312 = input_312_text.
Proof. reflexivity. Qed.

(** A POST to /sort with the body [{"input": [3, 1, 2]}], from the octets
    received to the octets sent. *)
Example serve_sort :
  serve json_loads_plain two_films a_date localhost []
    (request_text (lit "POST") (lit "/sort") (lit "HTTP/1.1")
       [(lit "Host", lit "localhost")] input_312_text)
  = (let data :=
       join CRLF [lit "HTTP/1.1 200 OK";
                  lit "Content-Type: application/json";
                  lit "Host: 127.0.0.1:7777";
                  lit "Date: Wed Nov  4 12:00:00 2026";
                  lit "Content-Length: 9";
                  [];
                  lit "[1, 2, 3]";
                  []] in
     Ok ([data], data)).
Proof. reflexivity. Qed.

(** A GET to /headers is answered with the headers of the request. *)
Example serve_headers :
  serve json_loads_plain two_films a_date localhost []
    (request_text (lit "GET") (lit "/headers") (lit "HTTP/1.1")
       [(lit "Host", lit "localhost"); (lit "Accept", lit "text/plain")] [])
  = (let data :=
       join CRLF [lit "HTTP/1.1 200 OK";
                  lit "Content-Type: application/json";
                  lit "Host: 127.0.0.1:7777";
                  lit "Date: Wed Nov  4 12:00:00 2026";
                  lit "Content-Length: 45";
                  [];
                  lit "{" ++ quoted (lit "Host") ++ lit ": " ++ quoted (lit "localhost")
                  ++ lit ", " ++ quoted (lit "Accept") ++ lit ": "
                  ++ quoted (lit "text/plain") ++ lit "}";
                  []] in
     Ok ([data], data)).
Proof. reflexivity. Qed.

(** A GET to /unknown is answered 404. *)
Example serve_unknown :
  serve json_loads_plain two_films a_date localhost []
    (request_text (lit "GET") (lit "/unknown") (lit "HTTP/1.1") [] [])
  = (let data :=
       join CRLF [lit "HTTP/1.1 404 Not Found";
                  lit "Content-Type: application/json";
                  lit "Host: 127.0.0.1:7777";
                  lit "Date: Wed Nov  4 12:00:00 2026";
                  lit "Content-Length: 9";
                  [];
                  lit "Not Found";
                  []] in
     Ok ([data], data)).
Proof. reflexivity. Qed.

(** A DELETE to /sort is answered 405. *)
Example serve_delete_sort :
  serve json_loads_plain two_films a_date localhost []
    (request_text (lit "DELETE") (lit "/sort") (lit "HTTP/1.1") [] [])
  = (let data :=
       join CRLF [lit "HTTP/1.1 405 Not Allowed";
                  lit "Content-Type: application/json";
                  lit "Host: 127.0.0.1:7777";
                  lit "Date: Wed Nov  4 12:00:00 2026";
                  lit "Content-Length: 11";
                  [];
                  lit "Not Allowed";
                  []] in
     Ok ([data], data)).
Proof. reflexivity. Qed.

(** The body [{"x": 1}] sent to /sort ends the turn with [KeyError]. *)
Example serve_sort_without_input :
  serve json_loads_plain two_films a_date localhost []
    (request_text (lit "POST") (lit "/sort") (lit "HTTP/1.1") [] x_1_text)
  = Raises KeyError.
Proof. reflexivity. Qed.

Lemma C1_witness :
  index1 (split (lit "/") (resource (request_of "GET" "/unknown" PNone)))
  = Ok (lit "unknown")
  /\ exists resp,
       handle_request two_films a_date localhost (request_of "GET" "/unknown" PNone)
       = Ok resp
       /\ status_code resp = 404 /\ resp_body resp = lit "Not Found".
Proof.
  split; [reflexivity|].
  apply (proj1 (C1_dispatch_by_collection_and_method two_films a_date localhost
                  (request_of "GET" "/unknown" PNone) (lit "unknown") eq_refl)).
  reflexivity.
Defined.

Lemma C2_witness :
  exists raw,
    utf8_encode (request_text (lit "POST") (lit "/sort") (lit "HTTP/1.1")
                   [(lit "Host", lit "localhost"); (lit "Accept", lit "*/*")]
                   input_312_text) = Ok raw
    /\ process_request json_loads_plain raw
       = Ok {| method := lit "POST"; resource := lit "/sort";
               http_version := lit "HTTP/1.1";
               headers := [(lit "Host", lit "localhost"); (lit "Accept", lit "*/*")];
               body := input_312 |}.
Proof.
  apply (C2_decode_of_framed_request json_loads_plain).
  - apply Forall_forall. apply forallb_forall. vm_compute. reflexivity.
  - reflexivity.
  - reflexivity.
  - reflexivity.
  - repeat constructor.
  - repeat constructor; simpl; intros H; repeat destruct H as [H|H];
      try discriminate H; exact H.
  - unfold request_lines. cbn [map app]. repeat (constructor; [reflexivity|]).
    constructor.
  - reflexivity.
Defined.

Example process_request_get_root :
  process_request json_loads_plain get_root_raw
  = Ok {| method := lit "GET"; resource := lit "/"; http_version := lit "HTTP/1.1";
          headers := [(lit "Host", lit "x")]; body := PNone |}.
Proof. reflexivity. Qed.

(** Line 2 of the four lines of [get_root_raw] is the blank line.  It lies
    among the lines 1 to n-2 and holds no ": ", yet the request is
    decoded. *)
Lemma C3_counterexample :
  let lines := split CRLF get_root_raw in
  ~ (forall j line,
        (1 <= j <= List.length lines - 2)%nat ->
        nth_error lines j = Some line ->
        List.length (split (lit ": ") line) <> 2%nat ->
        exists e, process_request json_loads_plain get_root_raw = Raises e).
Proof.
  intros lines H.
  destruct (H 2%nat []) as [e He].
  - vm_compute. split; repeat constructor.
  - reflexivity.
  - vm_compute. discriminate.
  - rewrite process_request_get_root in He. discriminate He.
Qed.

Lemma C3_witness :
  utf8_decode bad_header_raw = Ok bad_header_raw
  /\ exists e, process_request json_loads_plain bad_header_raw = Raises e.
Proof.
  split; [reflexivity|].
  apply (proj2 (proj2 (C3_header_lines_skip_last_two json_loads_plain
                         bad_header_raw bad_header_raw eq_refl))).
  exists (lit "junk"). split.
  - vm_compute. left. reflexivity.
  - vm_compute. discriminate.
Defined.

(** The resource "movies" has a single segment: the dispatcher raises, it
    does not answer 404. *)
Lemma C4_counterexample :
  (List.length (split (lit "/") (resource (request_of "GET" "movies" PNone))) < 2)%nat
  /\ ~ (exists resp,
           handle_request two_films a_date localhost (request_of "GET" "movies" PNone)
           = Ok resp
           /\ status_code resp = 404 /\ resp_body resp = lit "Not Found").
Proof.
  split.
  - vm_compute. repeat constructor.
  - intros [resp [H _]]. vm_compute in H. discriminate H.
Qed.

Lemma C4_witness :
  (List.length (split (lit "/") (resource (request_of "GET" "" PNone))) < 2)%nat
  /\ handle_request two_films a_date localhost (request_of "GET" "" PNone)
     = Raises IndexError.
Proof.
  assert (List.length (split (lit "/") (resource (request_of "GET" "" PNone))) < 2)%nat
    as H by (vm_compute; repeat constructor).
  split; [exact H|].
  apply (C4_short_resource_raises two_films a_date localhost _ H).
Defined.

(** The octets of [not_utf8_raw] form one request line of three tokens, no
    header line and an empty last line, and decoding raises all the same. *)
Lemma C5_counterexample :
  let lines := split CRLF not_utf8_raw in
  ~ ((exists e, process_request json_loads_plain not_utf8_raw = Raises e)
     <-> (List.length (split (lit " ") (hd [] lines)) <> 3%nat
          \/ (exists h, In h (slice_1_m2 lines)
                        /\ List.length (split (lit ": ") h) <> 2%nat)
          \/ (last lines [] <> []
              /\ exists e, json_loads_plain (last lines []) = Raises e))).
Proof.
  intros lines [H _].
  destruct H as [H|[[h [H _]]|[H _]]].
  - exists UnicodeDecodeError. reflexivity.
  - apply H. reflexivity.
  - vm_compute in H. exact H.
  - apply H. reflexivity.
Qed.

(** The list [2, NaN, 1] comes back as it was sent, with status 200: the
    1 stands behind the 2. *)
Lemma C7_counterexample :
  ordered_number (PInt 2) = true /\ ordered_number (PInt 1) = true
  /\ sort_numbers_func (request_of "POST" "/sort" input_2_nan_1)
     = Ok (PList [PInt 2; PFloat FNaN; PInt 1])
  /\ (exists resp,
        handle_request two_films a_date localhost
          (request_of "POST" "/sort" input_2_nan_1) = Ok resp
        /\ status_code resp = 200
        /\ resp_body resp = lit "[2, NaN, 1]")
  /\ py_lt (PInt 1) (PInt 2) = Ok true
  /\ ~ StronglySorted (fun a b => py_lt b a = Ok false)
         [PInt 2; PFloat FNaN; PInt 1].
Proof.
  split; [reflexivity|]. split; [reflexivity|]. split; [reflexivity|].
  split; [eexists; split; [reflexivity|split; reflexivity]|].
  split; [reflexivity|].
  intros H. inversion H as [|? ? _ Hall]; subst.
  inversion Hall as [|? ? _ Hall']; subst.
  inversion Hall' as [|? ? H1 _]; subst. discriminate H1.
Qed.

Lemma C7_witness :
  method (request_of "POST" "/sort" input_mixed) = lit "POST"
  /\ index1 (split (lit "/") (resource (request_of "POST" "/sort" input_mixed)))
     = Ok (lit "sort")
  /\ exists r resp,
       StronglySorted (fun a b => py_lt b a = Ok false) r
       /\ Permutation
            [PInt 3; PFloat (FFinite false 5 (-1)); PInt 1; PFloat (FInf true)] r
       /\ handle_request two_films a_date localhost
            (request_of "POST" "/sort" input_mixed) = Ok resp
       /\ status_code resp = 200
       /\ resp_body resp = json_dumps (PList r).
Proof.
  split; [reflexivity|]. split; [reflexivity|].
  apply (proj1 (C7_sort_numbers_without_nan two_films a_date localhost
                  (request_of "POST" "/sort" input_mixed) eq_refl eq_refl)
           [(lit "input",
             PList [PInt 3; PFloat (FFinite false 5 (-1)); PInt 1; PFloat (FInf true)])]
           [PInt 3; PFloat (FFinite false 5 (-1)); PInt 1; PFloat (FInf true)]).
  - reflexivity.
  - reflexivity.
  - repeat constructor.
  - repeat (apply Forall_cons; [first [exact I | vm_compute; reflexivity]|]).
    apply Forall_nil.
Defined.

(** The numbers 3, 2.5, 1 and -Infinity come back in order. *)
Example handle_sort_mixed :
  exists resp,
    handle_request two_films a_date localhost (request_of "POST" "/sort" input_mixed)
    = Ok resp
    /\ status_code resp = 200 /\ resp_body resp = lit "[-Infinity, 1, 2.5, 3]".
Proof. eexists. split; [vm_compute; reflexivity|]. split; reflexivity. Qed.

Example handle_sort_312 :
  exists resp,
    handle_request two_films a_date localhost (request_of "POST" "/sort" input_312)
    = Ok resp
    /\ status_code resp = 200 /\ resp_body resp = lit "[1, 2, 3]".
Proof. eexists. split; [reflexivity|]. split; reflexivity. Qed.

Lemma C8_witness :
  exists resp,
    handle_request two_films a_date localhost
      (request_of "GET" "/movies/Blade Runner" PNone) = Ok resp
    /\ status_code resp = 200
    /\ resp_body resp
       = json_dumps (PDict [(lit "Year", PStr (lit "1982"));
                            (lit "Title", PStr (lit "Blade Runner"))]).
Proof.
  apply (proj1 (C8_movie_lookup two_films a_date localhost
                  (request_of "GET" "/movies/Blade Runner" PNone)
                  _ eq_refl eq_refl eq_refl)
           [[(lit "Year", PStr (lit "1979")); (lit "Title", PStr (lit "Alien"))]]
           _ []).
  - reflexivity.
  - constructor; [|constructor].
    exists (PStr (lit "Alien")). split; [reflexivity|discriminate].
  - reflexivity.
Defined.

Example handle_movie_unknown :
  exists resp,
    handle_request two_films a_date localhost (request_of "GET" "/movies/Brazil" PNone)
    = Ok resp
    /\ status_code resp = 404 /\ resp_body resp = lit "Not Found".
Proof. eexists. split; [reflexivity|]. split; reflexivity. Qed.

Lemma C10_witness :
  sort_numbers (request_of "POST" "/sort" x_1) = Raises KeyError
  /\ handle_request two_films a_date localhost (request_of "POST" "/sort" x_1)
     = Raises KeyError.
Proof.
  apply (C10_sort_missing_input_raises two_films a_date localhost
           (request_of "POST" "/sort" x_1) [(lit "x", PInt 1)]);
    try reflexivity.
  discriminate.
Defined.

(** * Further properties *)

(** ** More on [split] *)

Lemma starts_with_app_r (p s t : str) :
  starts_with p s = true -> starts_with p (s ++ t) = true.
Proof.
  revert s; induction p as [|x p IH]; intros s H; [reflexivity|].
  destruct s as [|y s]; [discriminate|]. cbn [app starts_with] in *.
  apply andb_true_iff in H as [Hx Hr]. rewrite Hx. cbn [andb].
  apply IH. exact Hr.
Qed.

Lemma starts_with_app_false (p s t : str) :
  starts_with p s = false -> (List.length p <= List.length s)%nat ->
  starts_with p (s ++ t) = false.
Proof.
  revert s; induction p as [|x p IH]; intros s H Hl; [discriminate|].
  destruct s as [|y s]; [simpl in Hl; lia|]. cbn [app starts_with] in *.
  destruct (x =? y); [|reflexivity]. cbn [andb] in *.
  apply IH; [exact H|simpl in Hl; lia].
Qed.

Lemma skipn_starts_with (p s t : str) :
  starts_with p s = true ->
  skipn (List.length p) (s ++ t) = skipn (List.length p) s ++ t.
Proof.
  revert s; induction p as [|x p IH]; intros s H; [reflexivity|].
  destruct s as [|y s]; [discriminate|]. cbn [app starts_with List.length skipn] in *.
  apply andb_true_iff in H as [_ Hr]. apply IH. exact Hr.
Qed.

(** An occurrence found in [s] is still the leftmost one in [s ++ t]. *)
Lemma partition_app_some (sep s t a b : str) :
  partition sep s = Some (a, b) -> partition sep (s ++ t) = Some (a, b ++ t).
Proof.
  revert a b; induction s as [|c s IH]; intros a b H.
  - cbn [partition] in H. destruct (starts_with sep []) eqn:E; [|discriminate].
    injection H as <- <-. destruct sep; [|discriminate].
    cbn [app]. destruct t; reflexivity.
  - cbn [partition] in H. destruct (starts_with sep (c :: s)) eqn:E.
    + injection H as <- <-.
      pose proof (starts_with_app_r _ _ t E) as E'.
      cbn [app] in *. cbn [partition]. rewrite E'. f_equal. f_equal.
      apply (skipn_starts_with sep (c :: s) t E).
    + destruct (partition sep s) as [[a' b']|] eqn:P; [|discriminate].
      injection H as <- <-. cbn [app partition].
      rewrite (IH a' b' eq_refl).
      pose proof (starts_with_app_false sep (c :: s) t E) as E'.
      cbn [app] in E'. rewrite E'; [reflexivity|].
      apply partition_some in P. subst s. cbn [List.length].
      rewrite !length_app. lia.
Qed.

(** The text in front of the leftmost occurrence holds no occurrence. *)
Lemma partition_left_clean (sep s a b : str) :
  sep <> [] -> partition sep s = Some (a, b) -> contains sep a = false.
Proof.
  intros Hsep. revert a b; induction s as [|c s IH]; intros a b H.
  - cbn [partition] in H. destruct (starts_with sep []) eqn:E; [|discriminate].
    injection H as <- <-. destruct sep; [contradiction|reflexivity].
  - cbn [partition] in H. destruct (starts_with sep (c :: s)) eqn:E.
    + injection H as <- <-. destruct sep; [contradiction|reflexivity].
    + destruct (partition sep s) as [[a' b']|] eqn:P; [|discriminate].
      injection H as <- <-. cbn [contains]. rewrite (IH a' b' eq_refl).
      rewrite orb_false_r.
      destruct (starts_with sep (c :: a')) eqn:E'; [|reflexivity].
      apply partition_some in P. subst s.
      apply (starts_with_app_r _ _ (sep ++ b')) in E'. cbn [app] in E'. congruence.
Qed.

(** No segment of a split holds the separator. *)
Lemma split_segments_clean (sep s : str) :
  sep <> [] -> Forall (fun q => contains sep q = false) (split sep s).
Proof.
  intros Hsep. remember (List.length s) as n eqn:Hn. revert s Hn.
  induction n as [n IH] using (well_founded_induction Wf_nat.lt_wf).
  intros s Hn. destruct (partition sep s) as [[a b]|] eqn:P.
  - rewrite (split_cut sep s a b Hsep P). constructor.
    + apply (partition_left_clean sep s a b Hsep P).
    + apply (IH (List.length b)); [|reflexivity].
      subst n. apply (partition_shorter sep s a b Hsep P).
  - rewrite (split_whole sep s P). constructor; [|constructor].
    apply partition_none. exact P.
Qed.

(** Joining the segments of a split gives the text back. *)
Lemma join_split (sep s : str) : sep <> [] -> join sep (split sep s) = s.
Proof.
  intros Hsep. remember (List.length s) as n eqn:Hn. revert s Hn.
  induction n as [n IH] using (well_founded_induction Wf_nat.lt_wf).
  intros s Hn. destruct (partition sep s) as [[a b]|] eqn:P.
  - rewrite (split_cut sep s a b Hsep P).
    pose proof (IH (List.length b)) as IHb.
    specialize (IHb ltac:(subst n; apply (partition_shorter sep s a b Hsep P)) b eq_refl).
    pose proof (split_nonempty sep b) as Hne.
    destruct (split sep b) as [|q qs]; [contradiction|].
    change (join sep (a :: q :: qs)) with (a ++ sep ++ join sep (q :: qs)).
    rewrite IHb. symmetry. apply partition_some. exact P.
  - rewrite (split_whole sep s P). reflexivity.
Qed.

(** A split at a plain separator written between [a] and [b] is the split
    of [a] followed by the split of [b]. *)
Lemma split_app (sep a b : str) :
  plain_sep sep -> split sep (a ++ sep ++ b) = split sep a ++ split sep b.
Proof.
  intros Hplain. pose proof (plain_sep_nonempty sep Hplain) as Hsep.
  remember (List.length a) as n eqn:Hn. revert a Hn.
  induction n as [n IH] using (well_founded_induction Wf_nat.lt_wf).
  intros a Hn. destruct (partition sep a) as [[a1 a2]|] eqn:P.
  - rewrite (split_cut sep a a1 a2 Hsep P).
    rewrite (split_cut sep (a ++ sep ++ b) a1 (a2 ++ sep ++ b) Hsep
               (partition_app_some sep a (sep ++ b) a1 a2 P)).
    cbn [app]. f_equal. apply (IH (List.length a2)); [|reflexivity].
    subst n. apply (partition_shorter sep a a1 a2 Hsep P).
  - rewrite (split_whole sep a P). cbn [app].
    apply split_cut; [exact Hsep|].
    apply partition_at; [exact Hplain|]. apply partition_none. exact P.
Qed.

(** [a ++ sep ++ b] splits in two exactly when neither side holds the
    separator. *)
Lemma split_pair_iff (sep a b : str) :
  plain_sep sep ->
  List.length (split sep (a ++ sep ++ b)) = 2%nat
  <-> contains sep a = false /\ contains sep b = false.
Proof.
  intros Hplain. pose proof (plain_sep_nonempty sep Hplain) as Hsep.
  rewrite (split_app sep a b Hplain), length_app.
  rewrite <- (split_single sep a Hsep), <- (split_single sep b Hsep).
  pose proof (split_nonempty sep a). pose proof (split_nonempty sep b).
  destruct (split sep a); [contradiction|]. destruct (split sep b); [contradiction|].
  cbn [List.length]. lia.
Qed.

Lemma in_join (sep q : str) (parts : list str) (c : Z) :
  In q parts -> In c q -> In c (join sep parts).
Proof.
  induction parts as [|p rest IH]; intros Hq Hc; [contradiction|].
  destruct rest as [|r rest].
  - destruct Hq as [->|[]]. exact Hc.
  - change (join sep (p :: r :: rest)) with (p ++ sep ++ join sep (r :: rest)).
    destruct Hq as [->|Hq].
    + apply in_or_app. left. exact Hc.
    + apply in_or_app. right. apply in_or_app. right. apply IH; assumption.
Qed.

(** The characters of a segment are characters of the text. *)
Lemma split_segment_chars (sep s q : str) (c : Z) :
  sep <> [] -> In q (split sep s) -> In c q -> In c s.
Proof.
  intros Hsep Hq Hc. rewrite <- (join_split sep s Hsep).
  apply (in_join sep q); assumption.
Qed.

(** ** More on UTF-8 *)

(** What decoding yields is made of scalar values. *)
Lemma utf8_decode_scalar (b : bytes) (s : str) :
  utf8_decode b = Ok s -> Forall scalar s.
Proof.
  remember (List.length b) as n eqn:Hn. revert b s Hn.
  induction n as [n IH] using (well_founded_induction Wf_nat.lt_wf).
  intros b s Hn H. destruct b as [|b0 r0]; cbn [utf8_decode] in H.
  { injection H as <-. constructor. }
  destruct ((0 <=? b0) && (b0 <? 128)) eqn:C1.
  { destruct (utf8_decode r0) as [s0|] eqn:D; [|discriminate].
    cbn [bind] in H. injection H as <-. constructor; [unfold scalar; lia|].
    apply (IH (List.length r0)) with (b := r0); subst; simpl; auto. }
  destruct ((194 <=? b0) && (b0 <? 224)) eqn:C2.
  { destruct r0 as [|b1 r1]; [discriminate|].
    destruct (is_cont b1) eqn:K1; [|discriminate].
    destruct (utf8_decode r1) as [s1|] eqn:D; [|discriminate].
    cbn [bind] in H. injection H as <-. unfold is_cont in K1.
    constructor; [unfold scalar; lia|].
    apply (IH (List.length r1)) with (b := r1); subst; simpl; auto. }
  destruct ((224 <=? b0) && (b0 <? 240)) eqn:C3.
  { destruct r0 as [|b1 [|b2 r2]]; try discriminate. cbv zeta in H.
    match type of H with (if ?c then _ else _) = _ => destruct c eqn:K end;
      [|discriminate].
    destruct (utf8_decode r2) as [s2|] eqn:D; [|discriminate].
    cbn [bind] in H. injection H as <-. unfold is_cont in K.
    constructor; [unfold scalar; lia|].
    apply (IH (List.length r2)) with (b := r2); subst; simpl; auto. }
  destruct ((240 <=? b0) && (b0 <? 248)) eqn:C4; [|discriminate].
  destruct r0 as [|b1 [|b2 [|b3 r3]]]; try discriminate. cbv zeta in H.
  match type of H with (if ?c then _ else _) = _ => destruct c eqn:K end;
    [|discriminate].
  destruct (utf8_decode r3) as [s3|] eqn:D; [|discriminate].
  cbn [bind] in H. injection H as <-. unfold is_cont in K.
  constructor; [unfold scalar; lia|].
  apply (IH (List.length r3)) with (b := r3); subst; simpl; auto.
Qed.

(** ** Printable text *)

Lemma printable_scalar (c : Z) : printable c -> scalar c.
Proof. unfold printable, scalar. lia. Qed.

(** Printable text is its own UTF-8 encoding. *)
Lemma utf8_encode_printable (s : str) :
  Forall printable s -> utf8_encode s = Ok s.
Proof.
  induction 1 as [|c s Hc _ IH]; [reflexivity|].
  cbn [utf8_encode]. rewrite IH. unfold utf8_encode_char, printable in *.
  replace (c <? 0) with false by lia. replace (c <? 128) with true by lia.
  reflexivity.
Qed.

Lemma printable_no_CRLF (s : str) : Forall printable s -> contains CRLF s = false.
Proof.
  induction 1 as [|c s Hc _ IH]; [reflexivity|].
  cbn [contains]. rewrite IH. unfold CRLF. cbn [starts_with].
  unfold printable in Hc. replace (13 =? c) with false by lia. reflexivity.
Qed.

Ltac printable_literal :=
  cbv [lit list_ascii_of_string map N_of_ascii N_of_digits Z.of_N
       N.add N.mul Pos.add Pos.mul Pos.succ app];
  repeat (apply Forall_cons; [unfold printable; lia|]); apply Forall_nil.

Lemma string_of_uint_printable (u : Decimal.uint) :
  Forall printable (lit (DecimalString.NilEmpty.string_of_uint u)).
Proof.
  induction u; cbn [DecimalString.NilEmpty.string_of_uint];
    try (apply Forall_nil);
    apply Forall_cons; try exact IHu; vm_compute; split; discriminate.
Qed.

(** The decimal text of an int is printable. *)
Lemma str_of_int_printable (n : Z) : Forall printable (str_of_int n).
Proof.
  unfold str_of_int. destruct (Z.to_int n) as [u|u];
    cbn [DecimalString.NilEmpty.string_of_int].
  - apply string_of_uint_printable.
  - apply Forall_cons; [vm_compute; split; discriminate|].
    apply string_of_uint_printable.
Qed.

Lemma hex_digit_printable (n : Z) : 0 <= n < 16 -> printable (hex_digit n).
Proof. unfold hex_digit, printable. destruct (Z.ltb_spec n 10); lia. Qed.

Lemma hex4_printable (n : Z) : Forall printable (hex4 n).
Proof.
  unfold hex4.
  repeat (apply Forall_cons;
          [apply hex_digit_printable; apply Z.mod_pos_bound; lia|]).
  apply Forall_nil.
Qed.

(** Whatever the character, its escape is printable. *)
Lemma json_escape_printable (c : Z) : Forall printable (json_escape c).
Proof.
  unfold json_escape.
  repeat match goal with
         | |- context [if ?b then _ else _] => destruct b eqn:?
         end;
    try printable_literal;
    try (apply Forall_cons; [unfold printable; lia|apply Forall_nil]);
    repeat (apply Forall_app; split);
    try apply hex4_printable; printable_literal.
Qed.

Lemma json_str_printable (s : str) : Forall printable (json_str s).
Proof.
  unfold json_str. apply Forall_app. split; [printable_literal|].
  apply Forall_app. split; [|printable_literal].
  induction s as [|c s IH]; [apply Forall_nil|].
  cbn [flat_map]. apply Forall_app. split; [apply json_escape_printable|exact IH].
Qed.

Lemma join_printable (sep : str) (parts : list str) :
  Forall printable sep -> Forall (Forall printable) parts ->
  Forall printable (join sep parts).
Proof.
  intros Hsep. induction 1 as [|p rest Hp Hrest IH]; [apply Forall_nil|].
  destruct rest as [|r rest]; [exact Hp|].
  change (join sep (p :: r :: rest)) with (p ++ sep ++ join sep (r :: rest)).
  apply Forall_app. split; [exact Hp|]. apply Forall_app. split; assumption.
Qed.

Lemma firstn_printable (n : nat) (s : str) :
  Forall printable s -> Forall printable (firstn n s).
Proof.
  intros H. rewrite <- (firstn_skipn n s) in H.
  apply Forall_app in H. exact (proj1 H).
Qed.

Lemma skipn_printable (n : nat) (s : str) :
  Forall printable s -> Forall printable (skipn n s).
Proof.
  intros H. rewrite <- (firstn_skipn n s) in H.
  apply Forall_app in H. exact (proj2 H).
Qed.

Lemma zeros_printable (n : nat) : Forall printable (repeat 48 n).
Proof.
  induction n as [|n IH]; [apply Forall_nil|].
  apply Forall_cons; [unfold printable; lia|exact IH].
Qed.

Lemma float_digits_printable (m e : Z) :
  Forall printable (fst (float_digits m e)).
Proof.
  unfold float_digits. destruct (normalize m e) as [m' e'].
  cbv zeta.
  destruct (shortest_digits _ _ _ _ _ _ _) as [d x].
  destruct (strip_zeros _ _ _) as [d' x'].
  cbn [fst]. apply str_of_int_printable.
Qed.

Lemma float_repr_printable (m e : Z) : Forall printable (float_repr m e).
Proof.
  unfold float_repr. pose proof (float_digits_printable m e) as H.
  destruct (float_digits m e) as [digits decpt]. cbn [fst] in H. cbv zeta.
  repeat match goal with
         | |- context [if ?b then _ else _] => destruct b
         end;
    repeat (apply Forall_app; split);
    first [ exact H
          | apply firstn_printable; exact H
          | apply skipn_printable; exact H
          | apply zeros_printable
          | apply str_of_int_printable
          | printable_literal ].
Qed.

(** The text of a float is printable. *)
Lemma float_json_printable (f : pyfloat) : Forall printable (float_json f).
Proof.
  destruct f as [|negative|negative m e]; cbn [float_json].
  - printable_literal.
  - destruct negative; printable_literal.
  - apply Forall_app. split; [destruct negative; printable_literal|].
    destruct (m =? 0)%N; [printable_literal|apply float_repr_printable].
Qed.

(** Induction on Python values, through lists and dictionaries. *)
Lemma pyval_induction (P : pyval -> Prop) :
  P PNone ->
  (forall b, P (PBool b)) ->
  (forall n, P (PInt n)) ->
  (forall s, P (PStr s)) ->
  (forall l, Forall P l -> P (PList l)) ->
  (forall d, Forall (fun kv => P (snd kv)) d -> P (PDict d)) ->
  (forall f, P (PFloat f)) ->
  forall v, P v.
Proof.
  intros HN HB HI HS HL HD HF.
  refine (fix IH (v : pyval) : P v :=
            match v with
            | PNone => HN
            | PBool b => HB b
            | PInt n => HI n
            | PStr s => HS s
            | PList l =>
                HL l ((fix go (l : list pyval) : Forall P l :=
                         match l with
                         | [] => Forall_nil _
                         | x :: l' => Forall_cons x (IH x) (go l')
                         end) l)
            | PDict d =>
                HD d ((fix go (d : list (str * pyval))
                        : Forall (fun kv => P (snd kv)) d :=
                         match d with
                         | [] => Forall_nil _
                         | kv :: d' => Forall_cons kv (IH (snd kv)) (go d')
                         end) d)
            | PFloat f => HF f
            end).
Qed.

(** [json.dumps] writes printable ASCII only. *)
Lemma json_dumps_printable (v : pyval) : Forall printable (json_dumps v).
Proof.
  induction v as [| b | n | s | l IH | d IH | f] using pyval_induction;
    cbn [json_dumps].
  - printable_literal.
  - destruct b; printable_literal.
  - apply str_of_int_printable.
  - apply json_str_printable.
  - apply Forall_app. split; [printable_literal|].
    apply Forall_app. split; [|printable_literal].
    apply join_printable; [printable_literal|].
    apply Forall_map. exact IH.
  - apply Forall_app. split; [printable_literal|].
    apply Forall_app. split; [|printable_literal].
    apply join_printable; [printable_literal|].
    apply Forall_map. eapply Forall_impl; [|exact IH].
    intros [k x] Hx. cbn [snd] in Hx.
    apply Forall_app. split; [apply json_str_printable|].
    apply Forall_app. split; [printable_literal|exact Hx].
  - apply float_json_printable.
Qed.

(** ** What every response looks like *)

Lemma json_content_outcome {A} (func : A -> result pyval) (args : A)
    (code : Z) (content : str) :
  json_content func args = Ok (code, content) ->
  (code = 404 /\ content = lit "Not Found")
  \/ (code = 200 /\ exists v, func args = Ok v /\ v <> PNone
                              /\ content = json_dumps v).
Proof.
  unfold json_content. destruct (func args) as [v|]; [|discriminate].
  cbn [bind]. destruct v; intros H; try (injection H as <- <-; right; split;
    [reflexivity|eexists; split; [reflexivity|split; [discriminate|reflexivity]]]).
  cbn in H. injection H as <- <-. left. split; reflexivity.
Qed.

Lemma search_rows_no_title (title : str) (pre : list pydict) (row : pydict)
    (post : list pydict) :
  Forall (fun r => exists t, dict_get str_eqb r (lit "Title") = Some t
                             /\ t <> PStr title) pre ->
  dict_get str_eqb row (lit "Title") = None ->
  search_rows title (pre ++ row :: post) = Raises KeyError.
Proof.
  intros Hpre Hrow. induction Hpre as [|r pre [t [Ht Hne]] _ IH].
  - cbn [app search_rows]. unfold dict_getitem. rewrite Hrow. reflexivity.
  - cbn [app search_rows]. unfold dict_getitem. rewrite Ht. cbn [bind].
    destruct (py_eq t (PStr title)) eqn:E; [apply py_eq_str in E; contradiction|].
    exact IH.
Qed.

Section Responses.

Variable film : result (list pydict).
Variable now : str.
Variable self : HTTPServer.

(** The handlers of the route table, all wrapped by [json_content]. *)
Lemma collections_handlers (c m : str) (coll : list (str * handler)) (h : handler) :
  dict_get str_eqb (collections film) c = Some coll ->
  dict_get str_eqb coll m = Some h ->
  (c = lit "headers" /\ m = lit "GET" /\ h = get_request_headers)
  \/ (c = lit "movies" /\ m = lit "GET" /\ h = search_movie_title film)
  \/ (c = lit "sort" /\ m = lit "POST" /\ h = sort_numbers).
Proof.
  cbn [collections dict_get]. intros Hc Hm.
  destruct (str_eqb (lit "headers") c) eqn:E1.
  { injection Hc as <-. cbn [dict_get] in Hm.
    destruct (str_eqb (lit "GET") m) eqn:E; [|discriminate].
    injection Hm as <-. apply str_eqb_eq in E1, E. left. auto. }
  destruct (str_eqb (lit "movies") c) eqn:E2.
  { injection Hc as <-. cbn [dict_get] in Hm.
    destruct (str_eqb (lit "GET") m) eqn:E; [|discriminate].
    injection Hm as <-. apply str_eqb_eq in E2, E. right. left. auto. }
  destruct (str_eqb (lit "sort") c) eqn:E3; [|discriminate].
  injection Hc as <-. cbn [dict_get] in Hm.
  destruct (str_eqb (lit "POST") m) eqn:E; [|discriminate].
  injection Hm as <-. apply str_eqb_eq in E3, E. right. right. auto.
Qed.

Lemma handler_outcome (c m : str) (coll : list (str * handler)) (h : handler)
    (request : Request) (code : Z) (content : str) :
  dict_get str_eqb (collections film) c = Some coll ->
  dict_get str_eqb coll m = Some h ->
  h request = Ok (code, content) ->
  (code = 404 /\ content = lit "Not Found")
  \/ (code = 200 /\ exists v, content = json_dumps v).
Proof.
  intros Hc Hm Hr.
  destruct (collections_handlers c m coll h Hc Hm)
    as [[_ [_ ->]]|[[_ [_ ->]]|[_ [_ ->]]]];
    apply json_content_outcome in Hr as [H|[H [v [_ [_ Hv]]]]]; auto;
    right; split; auto; exists v; exact Hv.
Qed.

(** The shape of whatever [handle_request] returns. *)
Lemma handle_request_inv (request : Request) (resp : Response) :
  handle_request film now self request = Ok resp ->
  resp_http_version resp = http_version request
  /\ resp_headers resp = _generate_response_headers now self (resp_body resp)
  /\ ((status_code resp = 200 /\ status_message resp = lit "OK"
       /\ exists v, resp_body resp = json_dumps v)
      \/ (status_code resp = 404 /\ status_message resp = lit "Not Found"
          /\ resp_body resp = lit "Not Found")
      \/ (status_code resp = 405 /\ status_message resp = lit "Not Allowed"
          /\ resp_body resp = lit "Not Allowed")).
Proof.
  intros H. unfold handle_request in H.
  destruct (index1 _) as [c|]; [|discriminate]. cbn [bind] in H.
  unfold dispatch, dict_getitem in H.
  destruct (dict_get str_eqb (collections film) c) as [coll|] eqn:Ec.
  - destruct (dict_get str_eqb coll (method request)) as [h|] eqn:Eh.
    + destruct (h request) as [[code content]|] eqn:Er; [|discriminate].
      cbn [bind] in H.
      destruct (handler_outcome c _ coll h request code content Ec Eh Er)
        as [[-> ->]|[-> [v ->]]].
      * cbn in H. injection H as <-. cbn. auto 10.
      * cbn in H. injection H as <-. cbn. split; [reflexivity|].
        split; [reflexivity|]. left. eauto.
    + cbn in H. injection H as <-. cbn. auto 10.
  - cbn in H. injection H as <-. cbn. auto 10.
Qed.

(** X1.  Whatever the request, a response has one of the three status
    codes 200, 404 and 405 with the message [STATUS_CODES] gives it; under
    404 and 405 the body is that message; the version is the one of the
    request. *)
Theorem X1_only_three_statuses (request : Request) (resp : Response) :
  handle_request film now self request = Ok resp ->
  resp_http_version resp = http_version request
  /\ dict_get Z.eqb STATUS_CODES (status_code resp) = Some (status_message resp)
  /\ (status_code resp = 200
      \/ ((status_code resp = 404 \/ status_code resp = 405)
          /\ resp_body resp = status_message resp)).
Proof.
  intros H. apply handle_request_inv in H as [Hv [_ Hs]].
  split; [exact Hv|].
  destruct Hs as [[-> [-> _]]|[[-> [-> ->]]|[-> [-> ->]]]]; split; auto.
Qed.

(** X2.  Every response, the plain-text 404 and 405 included, carries the
    same four headers in the same order: Content-Type "application/json",
    Host "host:port", Date, and Content-Length with the length of the
    body. *)
Theorem X2_four_response_headers (request : Request) (resp : Response) :
  handle_request film now self request = Ok resp ->
  resp_headers resp
  = [ (lit "Content-Type", HStr (lit "application/json"));
      (lit "Host", HStr (host self ++ lit ":" ++ str_of_int (port self)));
      (lit "Date", HStr now);
      (lit "Content-Length", HInt (len (resp_body resp))) ].
Proof.
  intros H. apply handle_request_inv in H as [_ [Hh _]]. exact Hh.
Qed.

Lemma response_body_printable (request : Request) (resp : Response) :
  handle_request film now self request = Ok resp ->
  Forall printable (resp_body resp).
Proof.
  intros H. apply handle_request_inv in H as [_ [_ Hs]].
  destruct Hs as [[_ [_ [v ->]]]|[[_ [_ ->]]|[_ [_ ->]]]].
  - apply json_dumps_printable.
  - printable_literal.
  - printable_literal.
Qed.

(** X3.  The body of every response is printable ASCII: [json.dumps]
    escapes everything else.  Its UTF-8 encoding is the body itself, so the
    Content-Length header, computed on the text, is also the number of
    octets of the body on the wire. *)
Theorem X3_body_is_ascii (request : Request) (resp : Response) :
  handle_request film now self request = Ok resp ->
  Forall printable (resp_body resp)
  /\ utf8_encode (resp_body resp) = Ok (resp_body resp)
  /\ forall octets, utf8_encode (resp_body resp) = Ok octets ->
       dict_get str_eqb (resp_headers resp) (lit "Content-Length")
       = Some (HInt (len octets)).
Proof.
  intros H. pose proof (response_body_printable request resp H) as Hp.
  split; [exact Hp|]. split; [apply utf8_encode_printable; exact Hp|].
  intros octets Ho. rewrite (utf8_encode_printable _ Hp) in Ho.
  injection Ho as <-.
  apply handle_request_inv in H as [_ [-> _]]. reflexivity.
Qed.

(** X4.  A GET to the headers collection never fails: the answer is 200
    and the JSON object of the headers of the request, names and values as
    strings, in the order of the mapping. *)
Theorem X4_headers_echo (request : Request) :
  method request = lit "GET" ->
  index1 (split (lit "/") (resource request)) = Ok (lit "headers") ->
  exists resp,
    handle_request film now self request = Ok resp
    /\ status_code resp = 200
    /\ resp_body resp
       = json_dumps (PDict (map (fun '(k, v) => (k, PStr v)) (headers request))).
Proof.
  intros Hm Hc. eexists. split.
  - apply (handle_request_served film now self request (lit "headers")
             [(lit "GET", get_request_headers)] get_request_headers 200
             (json_dumps (PDict (map (fun '(k, v) => (k, PStr v)) (headers request))))
             (lit "OK") Hc eq_refl).
    + rewrite Hm. reflexivity.
    + reflexivity.
    + reflexivity.
  - split; reflexivity.
Qed.

(** X5.  The sort handler answers 200 and "[]" to every body that is
    false in a condition, not only to a missing one: [null], [false], [0],
    the empty string, list and object. *)
Theorem X5_sort_falsy_body (request : Request) :
  method request = lit "POST" ->
  index1 (split (lit "/") (resource request)) = Ok (lit "sort") ->
  truthy (body request) = false ->
  exists resp,
    handle_request film now self request = Ok resp
    /\ status_code resp = 200
    /\ resp_body resp = lit "[]".
Proof.
  intros Hm Hc Hb. eexists. split.
  - apply (handle_request_served film now self request (lit "sort")
             [(lit "POST", sort_numbers)] sort_numbers 200 (lit "[]") (lit "OK")
             Hc eq_refl).
    + rewrite Hm. reflexivity.
    + unfold sort_numbers, json_content, sort_numbers_func. rewrite Hb. reflexivity.
    + reflexivity.
  - split; reflexivity.
Qed.

(** X6.  The sort handler raises [TypeError], and so does
    [handle_request], when the body is true in a condition and is no
    object, and when it is an object that binds "input" to [null], a bool
    or an int. *)
Theorem X6_sort_type_errors (request : Request) :
  method request = lit "POST" ->
  index1 (split (lit "/") (resource request)) = Ok (lit "sort") ->
  truthy (body request) = true ->
  (forall d, body request <> PDict d)
  \/ (exists d v, body request = PDict d
                  /\ dict_get str_eqb d (lit "input") = Some v
                  /\ (v = PNone \/ (exists b, v = PBool b) \/ (exists n, v = PInt n))) ->
  handle_request film now self request = Raises TypeError.
Proof.
  intros Hm Hc Hb Hcase.
  apply (handle_request_handler_raises film now self request (lit "sort")
           [(lit "POST", sort_numbers)] sort_numbers TypeError Hc eq_refl).
  - rewrite Hm. reflexivity.
  - unfold sort_numbers, json_content, sort_numbers_func. rewrite Hb. cbn [negb].
    destruct Hcase as [Hnd|[d [v [Hd [Hin Hv]]]]].
    + destruct (body request) as [| b | n | s | l | d | f]; try reflexivity.
      exfalso. apply (Hnd d). reflexivity.
    + rewrite Hd. unfold py_getitem, dict_getitem. rewrite Hin. cbn [bind].
      destruct Hv as [->|[[b ->]|[n ->]]]; reflexivity.
Qed.

(** X7.  When the file of the movies cannot be opened, a GET to the movies
    collection raises the failure of [open]; no response is built. *)
Theorem X7_movies_file_failure (request : Request) (e : exn) :
  film = Raises e ->
  method request = lit "GET" ->
  index1 (split (lit "/") (resource request)) = Ok (lit "movies") ->
  handle_request film now self request = Raises e.
Proof.
  intros Hf Hm Hc.
  apply (handle_request_handler_raises film now self request (lit "movies")
           [(lit "GET", search_movie_title film)] (search_movie_title film) e
           Hc eq_refl).
  - rewrite Hm. reflexivity.
  - unfold search_movie_title, json_content, search_movie_title_func.
    rewrite Hf. reflexivity.
Qed.

(** X8.  The search reads the "Title" of every record up to the first
    match.  A record without that field, met before any match, makes a GET
    to the movies collection raise [KeyError], whatever follows it. *)
Theorem X8_movies_record_without_title (request : Request)
    (pre : list pydict) (row : pydict) (post : list pydict) :
  film = Ok (pre ++ row :: post) ->
  method request = lit "GET" ->
  index1 (split (lit "/") (resource request)) = Ok (lit "movies") ->
  Forall (fun r => exists t, dict_get str_eqb r (lit "Title") = Some t
                             /\ t <> PStr (last (split (lit "/") (resource request)) []))
    pre ->
  dict_get str_eqb row (lit "Title") = None ->
  handle_request film now self request = Raises KeyError.
Proof.
  intros Hf Hm Hc Hpre Hrow.
  apply (handle_request_handler_raises film now self request (lit "movies")
           [(lit "GET", search_movie_title film)] (search_movie_title film) KeyError
           Hc eq_refl).
  - rewrite Hm. reflexivity.
  - unfold search_movie_title, json_content, search_movie_title_func.
    rewrite Hf. cbn [bind].
    rewrite (search_rows_no_title _ pre row post Hpre Hrow). reflexivity.
Qed.

End Responses.

(** ** What every decoded request looks like *)

Lemma contains_app_l (sep a b : str) :
  contains sep a = true -> contains sep (a ++ b) = true.
Proof.
  induction a as [|c a IH]; cbn [contains app]; intros H.
  - rewrite orb_false_r in H. destruct sep; [|discriminate].
    destruct b; reflexivity.
  - apply orb_true_iff in H as [H|H].
    + apply (starts_with_app_r sep (c :: a) b) in H. cbn [app] in H.
      rewrite H. reflexivity.
    + rewrite (IH H). apply orb_true_r.
Qed.

Lemma contains_app_r (sep a b : str) :
  contains sep b = true -> contains sep (a ++ b) = true.
Proof.
  intros H. induction a as [|c a IH]; [exact H|].
  cbn [app contains]. rewrite IH. apply orb_true_r.
Qed.

Lemma contains_join (sep sep' q : str) (parts : list str) :
  In q parts -> contains sep q = true -> contains sep (join sep' parts) = true.
Proof.
  induction parts as [|p rest IH]; intros Hq Hc; [contradiction|].
  destruct rest as [|r rest].
  - destruct Hq as [->|[]]. exact Hc.
  - change (join sep' (p :: r :: rest)) with (p ++ sep' ++ join sep' (r :: rest)).
    destruct Hq as [->|Hq].
    + apply contains_app_l. exact Hc.
    + apply contains_app_r. apply contains_app_r. apply IH; assumption.
Qed.

(** A segment of a text that does not hold [sep] does not hold it either. *)
Lemma split_segment_without (sep sep' s q : str) :
  sep' <> [] -> contains sep s = false -> In q (split sep' s) ->
  contains sep q = false.
Proof.
  intros Hsep Hs Hq. destruct (contains sep q) eqn:E; [|reflexivity].
  rewrite <- (join_split sep' s Hsep) in Hs.
  rewrite (contains_join sep sep' q _ Hq E) in Hs. discriminate.
Qed.

Lemma in_slice_1_m2 {A} (l : list A) (x : A) : In x (slice_1_m2 l) -> In x l.
Proof.
  unfold slice_1_m2. intros H.
  rewrite <- (firstn_skipn (List.length l - 2) l). apply in_or_app. left.
  rewrite <- (firstn_skipn 1 (firstn (List.length l - 2) l)).
  apply in_or_app. right. exact H.
Qed.

Lemma slice_1_m2_short {A} (l : list A) :
  (List.length l < 4)%nat -> slice_1_m2 l = [].
Proof.
  intros H. destruct l as [|a [|b [|c [|d l]]]]; try reflexivity.
  simpl in H. lia.
Qed.

Lemma unpack3_ok {A} (l : list A) (a b c : A) :
  unpack3 l = Ok (a, b, c) <-> l = [a; b; c].
Proof.
  destruct l as [|x [|y [|z [|w l]]]]; simpl; split; try discriminate;
    intros H; injection H as -> -> ->; reflexivity.
Qed.

Lemma dict_setitem_keys {V} (d : list (str * V)) (k : str) (v : V) :
  map fst (dict_setitem str_eqb d k v)
  = if existsb (str_eqb k) (map fst d) then map fst d else map fst d ++ [k].
Proof.
  induction d as [|[k' v'] d IH]; [reflexivity|].
  cbn [dict_setitem map fst existsb].
  destruct (str_eqb k' k) eqn:E.
  - apply str_eqb_eq in E. subst k'. rewrite str_eqb_refl. reflexivity.
  - assert (str_eqb k k' = false) as ->.
    { apply str_eqb_neq. apply str_eqb_neq in E. congruence. }
    cbn [orb map fst]. rewrite IH.
    destruct (existsb (str_eqb k) (map fst d)); reflexivity.
Qed.

Lemma dict_setitem_NoDup {V} (d : list (str * V)) (k : str) (v : V) :
  NoDup (map fst d) -> NoDup (map fst (dict_setitem str_eqb d k v)).
Proof.
  intros H. rewrite dict_setitem_keys.
  destruct (existsb (str_eqb k) (map fst d)) eqn:E; [exact H|].
  apply NoDup_app; [exact H|repeat constructor; intros []|].
  intros x Hx [Hk|[]]. subst x.
  assert (existsb (str_eqb k) (map fst d) = true); [|congruence].
  apply existsb_exists. exists k. split; [exact Hx|apply str_eqb_refl].
Qed.

Lemma dict_setitem_Forall {V} (P : str * V -> Prop) (d : list (str * V))
    (k : str) (v : V) :
  Forall P d -> P (k, v) -> Forall P (dict_setitem str_eqb d k v).
Proof.
  intros Hd Hkv. induction Hd as [|[k' v'] d Hh Hd IH].
  - repeat constructor. exact Hkv.
  - cbn [dict_setitem]. destruct (str_eqb k' k) eqn:E.
    + apply str_eqb_eq in E. subst k'. constructor; assumption.
    + constructor; assumption.
Qed.

(** Reading a key after [d[k] = v]. *)
Lemma dict_get_setitem {V} (d : list (str * V)) (k k' : str) (v : V) :
  dict_get str_eqb (dict_setitem str_eqb d k v) k'
  = if str_eqb k k' then Some v else dict_get str_eqb d k'.
Proof.
  induction d as [|[k0 v0] d IH]; cbn [dict_setitem dict_get].
  - destruct (str_eqb k k'); reflexivity.
  - destruct (str_eqb k0 k) eqn:E; cbn [dict_get].
    + apply str_eqb_eq in E. subst k0. destruct (str_eqb k k'); reflexivity.
    + rewrite IH. destruct (str_eqb k0 k') eqn:E0; [|reflexivity].
      apply str_eqb_eq in E0. subst k'. rewrite str_eqb_neq in E.
      assert (str_eqb k k0 = false) as ->; [|reflexivity].
      apply str_eqb_neq. congruence.
Qed.

Lemma dict_get_app {V} (d1 d2 : list (str * V)) (k : str) :
  dict_get str_eqb (d1 ++ d2) k
  = match dict_get str_eqb d1 k with
    | Some v => Some v
    | None => dict_get str_eqb d2 k
    end.
Proof.
  induction d1 as [|[k0 v0] d1 IH]; [reflexivity|].
  cbn [app dict_get]. destruct (str_eqb k0 k); [reflexivity|exact IH].
Qed.

(** After a run of assignments, a key holds what the last assignment to it
    gave. *)
Lemma dict_get_fold_setitem (pairs acc : list (str * str)) (k : str) :
  dict_get str_eqb
    (fold_left (fun d kv => dict_setitem str_eqb d (fst kv) (snd kv)) pairs acc) k
  = match dict_get str_eqb (rev pairs) k with
    | Some v => Some v
    | None => dict_get str_eqb acc k
    end.
Proof.
  revert acc. induction pairs as [|[k0 v0] pairs IH]; intros acc; [reflexivity|].
  cbn [fold_left rev fst snd]. rewrite IH, dict_get_app, dict_get_setitem.
  cbn [dict_get]. destruct (dict_get str_eqb (rev pairs) k); [reflexivity|].
  destruct (str_eqb k0 k); reflexivity.
Qed.

Section Decoded.

Variable json_loads : str -> result pyval.

(** The steps behind a request that was decoded. *)
Lemma process_request_inv (raw : bytes) (req : Request) :
  process_request json_loads raw = Ok req ->
  exists text,
    utf8_decode raw = Ok text
    /\ split (lit " ") (hd [] (split CRLF text))
       = [method req; resource req; http_version req]
    /\ _get_headers (slice_1_m2 (split CRLF text)) = Ok (headers req)
    /\ _get_body json_loads (last (split CRLF text) []) = Ok (body req).
Proof.
  intros H. unfold process_request in H.
  destruct (utf8_decode raw) as [text|]; [|discriminate]. cbn [bind] in H.
  exists text. split; [reflexivity|].
  destruct (unpack3 _) as [[[m r] v]|] eqn:E3; [|discriminate]. cbn [bind] in H.
  destruct (_get_headers _) as [hs|] eqn:Eh; [|discriminate]. cbn [bind] in H.
  destruct (_get_body json_loads _) as [b|] eqn:Eb; [|discriminate].
  cbn [bind] in H. injection H as <-. cbn [method resource http_version headers body].
  apply unpack3_ok in E3. auto.
Qed.

Lemma hd_split_in (sep s : str) : In (hd [] (split sep s)) (split sep s).
Proof.
  pose proof (split_nonempty sep s) as H.
  destruct (split sep s); [contradiction|]. left. reflexivity.
Qed.

(** X9.  In a decoded request neither the method, nor the resource, nor
    the version holds a space or a CRLF. *)
Theorem X9_decoded_tokens (raw : bytes) (req : Request) :
  process_request json_loads raw = Ok req ->
  Forall (fun t => contains (lit " ") t = false /\ contains CRLF t = false)
    [method req; resource req; http_version req].
Proof.
  intros H. apply process_request_inv in H as [text [_ [Hline _]]].
  pose proof (split_segments_clean (lit " ") (hd [] (split CRLF text))
                (plain_sep_nonempty _ plain_space)) as Hsp.
  pose proof (split_segments_clean CRLF text (plain_sep_nonempty _ plain_CRLF)) as Hcr.
  rewrite Forall_forall in Hsp, Hcr.
  pose proof (Hcr _ (hd_split_in CRLF text)) as Hfirst.
  apply Forall_forall. intros t Ht. rewrite <- Hline in Ht. split.
  - apply Hsp. exact Ht.
  - apply (split_segment_without CRLF (lit " ") (hd [] (split CRLF text)) t);
      [apply plain_sep_nonempty, plain_space|exact Hfirst|exact Ht].
Qed.

Lemma _get_headers_from_invariant (P : str * str -> Prop)
    (raw_headers : list str) (acc hs : list (str * str)) :
  (forall line k v, In line raw_headers -> split (lit ": ") line = [k; v] -> P (k, v)) ->
  Forall P acc -> NoDup (map fst acc) ->
  _get_headers_from acc raw_headers = Ok hs ->
  Forall P hs /\ NoDup (map fst hs).
Proof.
  revert acc. induction raw_headers as [|h rest IH]; intros acc HP Hacc Hnd H;
    cbn [_get_headers_from] in H.
  - injection H as <-. auto.
  - destruct (unpack2 (split (lit ": ") h)) as [[k v]|] eqn:E; [|discriminate].
    cbn [bind] in H. apply unpack2_ok in E.
    apply (IH (dict_setitem str_eqb acc k v)).
    + intros line k' v' Hin. apply HP. right. exact Hin.
    + apply dict_setitem_Forall; [exact Hacc|]. apply (HP h); [left; reflexivity|exact E].
    + apply dict_setitem_NoDup. exact Hnd.
    + exact H.
Qed.

(** X10.  The headers of a decoded request have distinct names, and no
    name and no value holds a ": " or a CRLF. *)
Theorem X10_decoded_headers (raw : bytes) (req : Request) :
  process_request json_loads raw = Ok req ->
  NoDup (map fst (headers req))
  /\ Forall (fun h => contains (lit ": ") (fst h) = false
                      /\ contains (lit ": ") (snd h) = false
                      /\ contains CRLF (fst h) = false
                      /\ contains CRLF (snd h) = false) (headers req).
Proof.
  intros H. apply process_request_inv in H as [text [_ [_ [Hh _]]]].
  pose proof (split_segments_clean CRLF text (plain_sep_nonempty _ plain_CRLF)) as Hcr.
  rewrite Forall_forall in Hcr.
  unfold _get_headers in Hh.
  apply (_get_headers_from_invariant
           (fun h => contains (lit ": ") (fst h) = false
                     /\ contains (lit ": ") (snd h) = false
                     /\ contains CRLF (fst h) = false
                     /\ contains CRLF (snd h) = false)) in Hh.
  - destruct Hh as [HP Hnd]. split; assumption.
  - intros line k v Hin Hsplit. cbn [fst snd].
    pose proof (split_segments_clean (lit ": ") line
                  (plain_sep_nonempty _ plain_colon_space)) as Hcs.
    rewrite Hsplit in Hcs. rewrite Forall_forall in Hcs.
    pose proof (Hcr line (in_slice_1_m2 _ _ Hin)) as Hline.
    assert (In k (split (lit ": ") line)) as Hk by (rewrite Hsplit; left; reflexivity).
    assert (In v (split (lit ": ") line)) as Hv
        by (rewrite Hsplit; right; left; reflexivity).
    repeat split.
    + apply Hcs. left. reflexivity.
    + apply Hcs. right. left. reflexivity.
    + apply (split_segment_without CRLF (lit ": ") line k);
        [apply plain_sep_nonempty, plain_colon_space|exact Hline|exact Hk].
    + apply (split_segment_without CRLF (lit ": ") line v);
        [apply plain_sep_nonempty, plain_colon_space|exact Hline|exact Hv].
  - constructor.
  - constructor.
Qed.

(** X11.  When several header lines bear the same name, the decoded
    mapping holds the value of the last of them: looking a name up in the
    headers is looking it up in the header lines read backwards. *)
Theorem X11_last_header_wins (raw : bytes) (req : Request) :
  process_request json_loads raw = Ok req ->
  exists text pairs,
    utf8_decode raw = Ok text
    /\ Forall2 (fun line kv => split (lit ": ") line = [fst kv; snd kv])
         (slice_1_m2 (split CRLF text)) pairs
    /\ forall name,
         dict_get str_eqb (headers req) name = dict_get str_eqb (rev pairs) name.
Proof.
  intros H. apply process_request_inv in H as [text [Ht [_ [Hh _]]]].
  apply _get_headers_from_ok in Hh as [pairs [Hf Hhs]].
  exists text, pairs. split; [exact Ht|]. split; [exact Hf|].
  intros name. rewrite Hhs, dict_get_fold_setitem.
  destruct (dict_get str_eqb (rev pairs) name); reflexivity.
Qed.

(** X12.  A header line whose name or value itself holds a ": " makes
    [_get_headers] fail, wherever the line stands. *)
Theorem X12_header_with_second_separator (raw_headers : list str) (k v : str) :
  In (k ++ lit ": " ++ v) raw_headers ->
  contains (lit ": ") k = true \/ contains (lit ": ") v = true ->
  exists e, _get_headers raw_headers = Raises e.
Proof.
  intros Hin Hc. apply (_get_headers_from_fails raw_headers []).
  exists (k ++ lit ": " ++ v). split; [exact Hin|].
  intros Hlen. apply (split_pair_iff (lit ": ") k v plain_colon_space) in Hlen.
  destruct Hlen as [Hk Hv]. destruct Hc; congruence.
Qed.

(** X13.  In a request of at least three lines (the first line, any
    number of header lines, one more line and the last line) the line
    before the last one is never read: two such requests that differ in
    that line only are decoded alike.  In a request of two lines the line
    before the last is the first line, which is read. *)
Theorem X13_line_before_body_ignored (raw1 raw2 : bytes)
    (first x y b : str) (hs : list str) :
  Forall (fun line => contains CRLF line = false) (first :: hs ++ [x; y; b]) ->
  utf8_decode raw1 = Ok (join CRLF (first :: hs ++ [x; b])) ->
  utf8_decode raw2 = Ok (join CRLF (first :: hs ++ [y; b])) ->
  process_request json_loads raw1 = process_request json_loads raw2.
Proof.
  intros Hclean H1 H2.
  rewrite (process_request_text json_loads raw1 _ H1).
  rewrite (process_request_text json_loads raw2 _ H2).
  cbv zeta.
  inversion Hclean as [|? ? Hfirst Hrest]; subst.
  apply Forall_app in Hrest as [Hhs Htail].
  inversion Htail as [|? ? Hx Htail']; subst.
  inversion Htail' as [|? ? Hy Htail'']; subst.
  inversion Htail'' as [|? ? Hb _]; subst.
  rewrite !split_join; try apply plain_CRLF.
  - cbn [hd]. rewrite !slice_1_m2_framed, !last_framed. reflexivity.
  - constructor; [exact Hfirst|]. apply Forall_app. split; [exact Hhs|].
    repeat constructor; assumption.
  - constructor; [exact Hfirst|]. apply Forall_app. split; [exact Hhs|].
    repeat constructor; assumption.
Qed.

(** X14.  A request of fewer than four lines is decoded without headers:
    whatever stands on its lines 1 and 2 is dropped. *)
Theorem X14_short_request_has_no_headers (raw : bytes) (text : str) (req : Request) :
  utf8_decode raw = Ok text ->
  (List.length (split CRLF text) < 4)%nat ->
  process_request json_loads raw = Ok req ->
  headers req = [].
Proof.
  intros Ht Hlen H. apply process_request_inv in H as [text' [Ht' [_ [Hh _]]]].
  rewrite Ht in Ht'. injection Ht' as <-.
  rewrite (slice_1_m2_short _ Hlen) in Hh. cbn in Hh. injection Hh as <-.
  reflexivity.
Qed.

End Decoded.

(** ** Sending what was built *)

Lemma join_Forall (P : Z -> Prop) (sep : str) (parts : list str) :
  Forall P sep -> Forall (Forall P) parts -> Forall P (join sep parts).
Proof.
  intros Hsep. induction 1 as [|p rest Hp Hrest IH]; [apply Forall_nil|].
  destruct rest as [|r rest]; [exact Hp|].
  change (join sep (p :: r :: rest)) with (p ++ sep ++ join sep (r :: rest)).
  apply Forall_app. split; [exact Hp|]. apply Forall_app. split; assumption.
Qed.

Lemma printable_scalars (s : str) : Forall printable s -> Forall scalar s.
Proof. apply Forall_impl. exact printable_scalar. Qed.

Lemma CRLF_scalar : Forall scalar CRLF.
Proof. repeat constructor; unfold scalar; lia. Qed.

(** No CRLF arises where a text without one is put in front of another
    that does not start with a line feed. *)
Lemma no_CRLF_app (a b : str) :
  contains CRLF a = false -> contains CRLF b = false -> hd 0 b <> 10 ->
  contains CRLF (a ++ b) = false.
Proof.
  intros Ha Hb Hhd. induction a as [|c a IH]; [exact Hb|].
  cbn [contains] in Ha. apply orb_false_iff in Ha as [Hhead Htail].
  cbn [app contains]. rewrite (IH Htail), orb_false_r.
  unfold CRLF in *. cbn [starts_with] in *.
  destruct (13 =? c); [|reflexivity]. cbn [andb] in *.
  destruct a as [|d a]; cbn [app] in *.
  - destruct b as [|e b]; [reflexivity|]. cbn [hd] in Hhd.
    apply Z.eqb_neq in Hhd. rewrite Z.eqb_sym, Hhd. reflexivity.
  - exact Hhead.
Qed.

(** The version of a decoded request: scalar values, no CRLF. *)
Lemma decoded_version (json_loads : str -> result pyval) (raw : bytes)
    (req : Request) :
  process_request json_loads raw = Ok req ->
  Forall scalar (http_version req) /\ contains CRLF (http_version req) = false.
Proof.
  intros H. apply process_request_inv in H as [text [Ht [Hline _]]].
  assert (In (http_version req) (split (lit " ") (hd [] (split CRLF text)))) as Hv
      by (rewrite Hline; right; right; left; reflexivity).
  pose proof (plain_sep_nonempty _ plain_space) as Hsp.
  pose proof (plain_sep_nonempty _ plain_CRLF) as Hcr.
  split.
  - apply utf8_decode_scalar in Ht. rewrite Forall_forall in Ht.
    apply Forall_forall. intros c Hc. apply Ht.
    apply (split_segment_chars CRLF text (hd [] (split CRLF text)) c Hcr
             (hd_split_in CRLF text)).
    apply (split_segment_chars (lit " ") _ (http_version req) c Hsp Hv Hc).
  - pose proof (split_segments_clean CRLF text Hcr) as Hclean.
    rewrite Forall_forall in Hclean.
    apply (split_segment_without CRLF (lit " ") (hd [] (split CRLF text)));
      [exact Hsp|apply Hclean, hd_split_in|exact Hv].
Qed.

(** The text of a response, spelled out. *)
Lemma response_text_explicit (response : Response) :
  response_text response
  = Ok (resp_http_version response ++ lit " "
        ++ str_of_int (status_code response) ++ lit " "
        ++ status_message response ++ CRLF
        ++ join CRLF
             (map (fun '(key, value) => key ++ lit ": " ++ hval_format value)
                  (resp_headers response))
        ++ CRLF ++ CRLF ++ resp_body response ++ CRLF).
Proof. unfold response_text. apply format_response_tpl. Qed.

Lemma status_message_printable (film : result (list pydict)) (now : str)
    (self : HTTPServer) (request : Request) (resp : Response) :
  handle_request film now self request = Ok resp ->
  Forall printable (status_message resp).
Proof.
  intros H. apply handle_request_inv in H as [_ [_ Hs]].
  destruct Hs as [[_ [-> _]]|[[_ [-> _]]|[_ [-> _]]]]; printable_literal.
Qed.

Section Sending.

Variable json_loads : str -> result pyval.
Variable film : result (list pydict).
Variable now : str.
Variable self : HTTPServer.

(** X15.  A response built for a request that was decoded can always be
    sent, provided the host name and the date are text that can be
    encoded: [send_response] does not raise, it appends one buffer to what
    the socket has sent, and the buffer decodes to the formatted text. *)
Theorem X15_send_never_fails (socket : TcpSocket) (raw : bytes)
    (req : Request) (resp : Response) :
  process_request json_loads raw = Ok req ->
  handle_request film now self req = Ok resp ->
  Forall scalar (host self) ->
  Forall scalar now ->
  exists text data,
    response_text resp = Ok text
    /\ send_response socket resp = Ok (socket ++ [data], data)
    /\ utf8_decode data = Ok text.
Proof.
  intros Hreq Hresp Hhost Hnow.
  pose proof (decoded_version json_loads raw req Hreq) as [Hver _].
  pose proof (response_body_printable film now self req resp Hresp) as Hbody.
  pose proof (status_message_printable film now self req resp Hresp) as Hmsg.
  pose proof (handle_request_inv film now self req resp Hresp) as [Hv [Hh _]].
  eexists. 
  assert (Forall scalar
            (resp_http_version resp ++ lit " "
             ++ str_of_int (status_code resp) ++ lit " "
             ++ status_message resp ++ CRLF
             ++ join CRLF
                  (map (fun '(key, value) => key ++ lit ": " ++ hval_format value)
                       (resp_headers resp))
             ++ CRLF ++ CRLF ++ resp_body resp ++ CRLF)) as Hscalar.
  { rewrite Hv, Hh. cbn [_generate_response_headers map hval_format join].
    apply printable_scalars in Hbody, Hmsg.
    rewrite !Forall_app. repeat split;
      first [ assumption | exact CRLF_scalar
            | apply printable_scalars;
              first [ apply str_of_int_printable | printable_literal ] ]. }
  destruct (utf8_decode_encode _ Hscalar) as [data [Henc Hdec]].
  exists data. split; [apply response_text_explicit|]. split; [|exact Hdec].
  unfold send_response. rewrite response_text_explicit. cbn [bind].
  rewrite Henc. reflexivity.
Qed.

(** X16.  With a printable host name and date, the text sent for a decoded
    request splits on CRLF into exactly eight lines: the status line, the
    four header lines, an empty line, the body, and the empty end. *)
Theorem X16_response_lines (raw : bytes) (req : Request) (resp : Response) :
  process_request json_loads raw = Ok req ->
  handle_request film now self req = Ok resp ->
  Forall printable (host self) ->
  Forall printable now ->
  exists text,
    response_text resp = Ok text
    /\ split CRLF text
       = [ http_version req ++ lit " " ++ str_of_int (status_code resp)
           ++ lit " " ++ status_message resp;
           lit "Content-Type: application/json";
           lit "Host: " ++ host self ++ lit ":" ++ str_of_int (port self);
           lit "Date: " ++ now;
           lit "Content-Length: " ++ str_of_int (len (resp_body resp));
           [];
           resp_body resp;
           [] ].
Proof.
  intros Hreq Hresp Hhost Hnow.
  pose proof (decoded_version json_loads raw req Hreq) as [_ Hver].
  pose proof (response_body_printable film now self req resp Hresp) as Hbody.
  pose proof (status_message_printable film now self req resp Hresp) as Hmsg.
  pose proof (handle_request_inv film now self req resp Hresp) as [Hv [Hh _]].
  eexists. split; [apply response_text_explicit|].
  rewrite Hv, Hh. cbn [_generate_response_headers map hval_format].
  match goal with
  | |- split CRLF ?t = ?l =>
      replace t with (join CRLF l)
        by (cbn [join]; rewrite <- ?app_assoc; cbn [app];
            rewrite ?app_nil_r; reflexivity)
  end.
  apply split_join; [apply plain_CRLF|].
  assert (forall s, Forall printable s -> contains CRLF s = false) as Hp
      by exact printable_no_CRLF.
  repeat (apply Forall_cons; [|]); try apply Forall_nil; try reflexivity.
  - apply no_CRLF_app; [exact Hver| |cbn; lia].
    apply Hp. rewrite !Forall_app. repeat split;
      first [ assumption | apply str_of_int_printable | printable_literal ].
  - apply Hp. rewrite !Forall_app. repeat split;
      first [ assumption | apply str_of_int_printable | printable_literal ].
  - apply Hp. rewrite !Forall_app. repeat split;
      first [ assumption | printable_literal ].
  - apply Hp. rewrite !Forall_app. repeat split;
      first [ apply str_of_int_printable | printable_literal ].
  - apply Hp. exact Hbody.
Qed.

(** What [serve] does depends on the request, not on the socket. *)
Lemma serve_socket (socket : TcpSocket) (raw : bytes) :
  match serve json_loads film now self socket raw with
  | Ok (socket', data) =>
      socket' = socket ++ [data]
      /\ forall s, serve json_loads film now self s raw = Ok (s ++ [data], data)
  | Raises e => forall s, serve json_loads film now self s raw = Raises e
  end.
Proof.
  unfold serve.
  destruct (process_request json_loads raw) as [req|]; [|cbn [bind]; intros; reflexivity].
  cbn [bind].
  destruct (handle_request film now self req) as [resp|]; [|cbn [bind]; intros; reflexivity].
  cbn [bind]. unfold send_response.
  destruct (response_text resp) as [text|]; [|cbn [bind]; intros; reflexivity]. cbn [bind].
  destruct (utf8_encode text) as [data|]; [|cbn [bind]; intros; reflexivity]. cbn [bind].
  split; reflexivity.
Qed.


End Sending.

(** ** Handlers that never answer 404 *)

Lemma json_content_404 {A} (func : A -> result pyval) (args : A) (content : str) :
  json_content func args = Ok (404, content) -> func args = Ok PNone.
Proof.
  unfold json_content. destruct (func args) as [v|]; [|discriminate].
  cbn [bind]. destruct v; try discriminate. reflexivity.
Qed.

Lemma sort_numbers_func_not_None (request : Request) :
  sort_numbers_func request <> Ok PNone.
Proof.
  unfold sort_numbers_func. destruct (negb (truthy (body request))); [discriminate|].
  destruct (py_getitem _ _) as [numbers|]; [|discriminate]. cbn [bind].
  unfold py_sorted. destruct (py_iter numbers) as [items|]; [|discriminate].
  cbn [bind]. destruct (list_sort items); discriminate.
Qed.

(** X18.  The headers and the sort collection never answer 404: a request
    to one of them is answered 200 or, under another method, 405, or it
    raises.  Only the movie search returns [None] to [json_content]. *)
Theorem X18_only_movies_answer_404 (film : result (list pydict)) (now : str)
    (self : HTTPServer) (request : Request) (c : str) (resp : Response) :
  index1 (split (lit "/") (resource request)) = Ok c ->
  c = lit "headers" \/ c = lit "sort" ->
  handle_request film now self request = Ok resp ->
  status_code resp = 200 \/ status_code resp = 405.
Proof.
  intros Hc Hcoll H. unfold handle_request in H. rewrite Hc in H.
  cbn [bind] in H. unfold dispatch, dict_getitem in H.
  destruct (dict_get str_eqb (collections film) c) as [coll|] eqn:Ec.
  2:{ exfalso. destruct Hcoll as [Hk|Hk]; subst c; discriminate. }
  destruct (dict_get str_eqb coll (method request)) as [h|] eqn:Eh.
  2:{ cbn in H. injection H as <-. right. reflexivity. }
  destruct (h request) as [[code content]|] eqn:Er; [|discriminate].
  cbn [bind] in H.
  assert (code = 200) as ->.
  { destruct (collections_handlers film c _ coll h Ec Eh)
      as [[_ [_ Hh]]|[[Hk _]|[_ [_ Hh]]]].
    - subst h. pose proof Er as Er'.
      apply json_content_outcome in Er as [[E1 E2]|[E1 _]]; [|exact E1].
      subst code. apply json_content_404 in Er'. discriminate Er'.
    - subst c. destruct Hcoll; discriminate.
    - subst h. pose proof Er as Er'.
      apply json_content_outcome in Er as [[E1 E2]|[E1 _]]; [|exact E1].
      subst code. apply json_content_404 in Er'.
      exfalso. exact (sort_numbers_func_not_None request Er'). }
  cbn in H. injection H as <-. left. reflexivity.
Qed.

(** ** Closed instances of the further properties *)

Lemma X1_witness :
  exists resp,
    handle_request two_films a_date localhost (request_of "DELETE" "/sort" PNone)
    = Ok resp
    /\ (status_code resp = 200
        \/ ((status_code resp = 404 \/ status_code resp = 405)
            /\ resp_body resp = status_message resp)).
Proof.
  eexists. split; [reflexivity|].
  apply (proj2 (proj2 (X1_only_three_statuses two_films a_date localhost
                         (request_of "DELETE" "/sort" PNone) _ eq_refl))).
Defined.

Lemma X2_witness :
  exists resp,
    handle_request two_films a_date localhost (request_of "GET" "/unknown" PNone)
    = Ok resp
    /\ resp_headers resp
       = [ (lit "Content-Type", HStr (lit "application/json"));
           (lit "Host", HStr (lit "127.0.0.1:7777"));
           (lit "Date", HStr a_date);
           (lit "Content-Length", HInt 9) ].
Proof.
  eexists. split; [reflexivity|].
  apply (X2_four_response_headers two_films a_date localhost
           (request_of "GET" "/unknown" PNone) _ eq_refl).
Defined.

Lemma X3_witness :
  exists resp,
    handle_request two_films a_date localhost
      (request_of "GET" "/movies/Alien" PNone) = Ok resp
    /\ utf8_encode (resp_body resp) = Ok (resp_body resp).
Proof.
  eexists. split; [reflexivity|].
  apply (proj1 (proj2 (X3_body_is_ascii two_films a_date localhost
                         (request_of "GET" "/movies/Alien" PNone) _ eq_refl))).
Defined.

Lemma X4_witness :
  exists resp,
    handle_request two_films a_date localhost (request_of "GET" "/headers" PNone)
    = Ok resp
    /\ status_code resp = 200
    /\ resp_body resp
       = json_dumps (PDict [(lit "Host", PStr (lit "localhost"))]).
Proof.
  apply (X4_headers_echo two_films a_date localhost
           (request_of "GET" "/headers" PNone) eq_refl eq_refl).
Defined.

Lemma X5_witness :
  truthy (body (request_of "POST" "/sort" (PDict []))) = false
  /\ exists resp,
       handle_request two_films a_date localhost (request_of "POST" "/sort" (PDict []))
       = Ok resp
       /\ status_code resp = 200 /\ resp_body resp = lit "[]".
Proof.
  split; [reflexivity|].
  apply (X5_sort_falsy_body two_films a_date localhost
           (request_of "POST" "/sort" (PDict [])) eq_refl eq_refl eq_refl).
Defined.

Lemma X6_witness :
  handle_request two_films a_date localhost
    (request_of "POST" "/sort" (PList [PInt 3; PInt 1]))
  = Raises TypeError.
Proof.
  apply (X6_sort_type_errors two_films a_date localhost
           (request_of "POST" "/sort" (PList [PInt 3; PInt 1]))
           eq_refl eq_refl eq_refl).
  left. intros d. discriminate.
Defined.

Lemma X7_witness :
  handle_request (Raises FileNotFoundError) a_date localhost
    (request_of "GET" "/movies/Alien" PNone)
  = Raises FileNotFoundError.
Proof.
  apply (X7_movies_file_failure (Raises FileNotFoundError) a_date localhost
           (request_of "GET" "/movies/Alien" PNone) FileNotFoundError
           eq_refl eq_refl eq_refl).
Defined.

Lemma X8_witness :
  handle_request untitled_film a_date localhost
    (request_of "GET" "/movies/Alien" PNone)
  = Raises KeyError.
Proof.
  apply (X8_movies_record_without_title untitled_film a_date localhost
           (request_of "GET" "/movies/Alien" PNone) []
           [(lit "Year", PStr (lit "1979")); (lit "Name", PStr (lit "Alien"))] []
           eq_refl eq_refl eq_refl).
  - constructor.
  - reflexivity.
Defined.

Lemma X9_witness :
  exists req,
    process_request json_loads_plain get_root_raw = Ok req
    /\ Forall (fun t => contains (lit " ") t = false /\ contains CRLF t = false)
         [method req; resource req; http_version req].
Proof.
  eexists. split; [reflexivity|].
  apply (X9_decoded_tokens json_loads_plain get_root_raw _ eq_refl).
Defined.

Lemma X10_witness :
  exists req,
    process_request json_loads_plain twice_accept_raw = Ok req
    /\ NoDup (map fst (headers req)).
Proof.
  eexists. split; [reflexivity|].
  apply (proj1 (X10_decoded_headers json_loads_plain twice_accept_raw _ eq_refl)).
Defined.

Example process_request_twice_accept :
  process_request json_loads_plain twice_accept_raw
  = Ok {| method := lit "GET"; resource := lit "/headers";
          http_version := lit "HTTP/1.1";
          headers := [(lit "Accept", lit "*/*"); (lit "Host", lit "x")];
          body := PNone |}.
Proof. reflexivity. Qed.

Lemma X11_witness :
  exists req text pairs,
    process_request json_loads_plain twice_accept_raw = Ok req
    /\ utf8_decode twice_accept_raw = Ok text
    /\ Forall2 (fun line kv => split (lit ": ") line = [fst kv; snd kv])
         (slice_1_m2 (split CRLF text)) pairs
    /\ forall name,
         dict_get str_eqb (headers req) name = dict_get str_eqb (rev pairs) name.
Proof.
  eexists.
  destruct (X11_last_header_wins json_loads_plain twice_accept_raw _ eq_refl)
    as [text [pairs H]].
  exists text, pairs. split; [reflexivity|exact H].
Defined.

Lemma X12_witness :
  exists e, _get_headers [lit "Host: x"; lit "Referer: http: //x"] = Raises e.
Proof.
  apply (X12_header_with_second_separator _ (lit "Referer") (lit "http: //x")).
  - right. left. reflexivity.
  - right. reflexivity.
Defined.

Lemma X13_witness :
  process_request json_loads_plain late_header_raw
  = process_request json_loads_plain
      (join CRLF [lit "GET /headers HTTP/1.1"; lit "Host: x"; []; []]).
Proof.
  apply (X13_line_before_body_ignored json_loads_plain _ _
           (lit "GET /headers HTTP/1.1") (lit "Accept: */*") [] []
           [lit "Host: x"]).
  - cbn [app]. repeat (constructor; [reflexivity|]). constructor.
  - reflexivity.
  - reflexivity.
Defined.

(** Two lines only: the line before the last is the request line. *)
Example two_line_request_reads_first_line :
  process_request json_loads_plain (join CRLF [lit "GET /a HTTP/1.1"; []])
  <> process_request json_loads_plain (join CRLF [lit "GET /b HTTP/1.1"; []]).
Proof. vm_compute. discriminate. Qed.

Lemma X14_witness :
  exists req,
    process_request json_loads_plain no_blank_line_raw = Ok req
    /\ headers req = [].
Proof.
  eexists. split; [reflexivity|].
  apply (X14_short_request_has_no_headers json_loads_plain
           no_blank_line_raw no_blank_line_raw _ eq_refl).
  - vm_compute. repeat constructor.
  - reflexivity.
Defined.

Lemma localhost_printable : Forall printable (host localhost).
Proof. unfold localhost. cbn [host]. printable_literal. Qed.

Lemma a_date_printable : Forall printable a_date.
Proof. unfold a_date. printable_literal. Qed.

Lemma X15_witness :
  exists req resp,
    process_request json_loads_plain get_root_raw = Ok req
    /\ handle_request two_films a_date localhost req = Ok resp
    /\ exists text data,
         response_text resp = Ok text
         /\ send_response [] resp = Ok ([] ++ [data], data)
         /\ utf8_decode data = Ok text.
Proof.
  eexists. eexists. split; [reflexivity|]. split; [reflexivity|].
  apply (X15_send_never_fails json_loads_plain two_films a_date localhost
           [] get_root_raw _ _ eq_refl eq_refl).
  - apply printable_scalars, localhost_printable.
  - apply printable_scalars, a_date_printable.
Defined.

Lemma X16_witness :
  exists req resp text,
    process_request json_loads_plain get_root_raw = Ok req
    /\ handle_request two_films a_date localhost req = Ok resp
    /\ response_text resp = Ok text
    /\ split CRLF text
       = [ lit "HTTP/1.1 404 Not Found";
           lit "Content-Type: application/json";
           lit "Host: 127.0.0.1:7777";
           lit "Date: Wed Nov  4 12:00:00 2026";
           lit "Content-Length: 9";
           [];
           lit "Not Found";
           [] ].
Proof.
  eexists. eexists.
  destruct (X16_response_lines json_loads_plain two_films a_date localhost
              get_root_raw _ _ eq_refl eq_refl
              localhost_printable a_date_printable) as [text [Ht Hs]].
  exists text. split; [reflexivity|]. split; [reflexivity|].
  split; [exact Ht|exact Hs].
Defined.


Lemma X18_witness :
  exists resp,
    handle_request two_films a_date localhost (request_of "POST" "/sort" input_312)
    = Ok resp
    /\ (status_code resp = 200 \/ status_code resp = 405).
Proof.
  eexists. split; [reflexivity|].
  apply (X18_only_movies_answer_404 two_films a_date localhost
           (request_of "POST" "/sort" input_312) (lit "sort") _
           eq_refl (or_intror eq_refl) eq_refl).
Defined.
